(** * The toolbox background page: a shallow embedding

    The development follows the background script of the extension
    (notification bookkeeping, OAuth token retrieval, cache timeouts and the
    [runtime.onMessage] listener) and the split-out notification handlers.
    Where the sources hold two revisions of the background script, the
    listener modelled is the later, [async] one, which has the [tb-reload]
    and [tb-request] branches; the notification and cache functions are the
    same in both. The earlier listener is [onMessage_earlier].

    Conventions of the embedding:
    - JS objects used as dictionaries ([notificationData], [localStorage],
      the [messageHandlers] Map) are finite maps keyed by strings; property
      names inherited from a prototype are outside the key space (notification
      ids are UUIDs, storage keys are the toolbox key names);
    - JS numbers that reach the code are durations and clock readings: they
      are integers ([Z]) or [NaN] (the only non-integer [parseInt] returns);
    - the engine's builtins ([parseInt], [JSON.parse], [JSON.stringify],
      [atob]) are parameters of the development;
    - calls to the host ([chrome.*], [$.ajax]) are recorded, in order, in the
      [effects] field of the state; host callbacks that touch the script's
      own state are events of the event loop;
    - [console.log] diagnostics are not recorded. *)

From Stdlib Require Import ZArith String Ascii List Lia Bool.
From stdpp Require Import base option gmap strings list.
Import ListNotations.

Local Open Scope string_scope.
Set Warnings "-register-all".

(** ** JavaScript values *)

Module JS.

Inductive jsnum := NaN | Int (z : Z).

Inductive JSValue :=
| JUndefined
| JNull
| JBool (b : bool)
| JNum (n : jsnum)
| JStr (s : string)
| JArr (xs : list JSValue)
| JObj (fields : list (string * JSValue)).

(** Errors are identified by their [name] and [message]. *)
Inductive JSError :=
| TypeError (message : string)
| SyntaxError (message : string)
| Error (message : string)
| DOMException (message : string).

Definition error_name (e : JSError) : string :=
  match e with
  | TypeError _ => "TypeError"
  | SyntaxError _ => "SyntaxError"
  | Error _ => "Error"
  | DOMException _ => "InvalidCharacterError"
  end.

Definition error_message (e : JSError) : string :=
  match e with
  | TypeError m | SyntaxError m | Error m | DOMException m => m
  end.

(** [Error.prototype.toString]: the name alone when the message is empty,
    otherwise [name: message] (the name is never empty here). *)
Definition error_toString (e : JSError) : string :=
  match error_message e with
  | EmptyString => error_name e
  | m => error_name e +:+ ": " +:+ m
  end.

(** [ToBoolean]. *)
Definition truthy (v : JSValue) : bool :=
  match v with
  | JUndefined | JNull => false
  | JBool b => b
  | JNum NaN => false
  | JNum (Int z) => negb (z =? 0)%Z
  | JStr s => negb (String.eqb s EmptyString)
  | JArr _ | JObj _ => true
  end.

(** [a !== b] on numbers: [NaN] differs from everything, itself included. *)
Definition num_strict_neq (a b : jsnum) : bool :=
  match a, b with
  | Int x, Int y => negb (x =? y)%Z
  | _, _ => true
  end.

(** [a * b] on numbers. *)
Definition num_mul (a b : jsnum) : jsnum :=
  match a, b with
  | Int x, Int y => Int (x * y)
  | _, _ => NaN
  end.

Definition is_null (v : JSValue) : bool :=
  match v with JNull => true | _ => false end.

Definition is_undefined (v : JSValue) : bool :=
  match v with JUndefined => true | _ => false end.

Fixpoint assoc (k : string) (fields : list (string * JSValue)) : JSValue :=
  match fields with
  | [] => JUndefined
  | (k', v) :: rest => if String.eqb k k' then v else assoc k rest
  end.

(** Property read [v[k]] for a key that no prototype defines: it throws on
    [undefined] and [null], reads the own property of an object, and is
    [undefined] on every other value. *)
Definition member (v : JSValue) (k : string) : JSValue + JSError :=
  match v with
  | JUndefined => inr (TypeError ("Cannot read properties of undefined (reading '" +:+ k +:+ "')"))
  | JNull => inr (TypeError ("Cannot read properties of null (reading '" +:+ k +:+ "')"))
  | JObj fields => inl (assoc k fields)
  | _ => inl JUndefined
  end.

(** [s.startsWith(p)] *)
Definition startsWith (p s : string) : bool := String.prefix p s.

(** [s.includes(p)] *)
Fixpoint includes (p s : string) : bool :=
  String.prefix p s ||
  match s with
  | EmptyString => false
  | String _ rest => includes p rest
  end.

(** The builtins of the engine the script calls. *)
Record Builtins := {
  parseInt : JSValue -> jsnum;
  JSON_parse : string -> JSValue + string;     (* value, or the SyntaxError's message *)
  JSON_stringify : JSValue -> option string;   (* [None] is the result [undefined] *)
  atob : string -> string + string;            (* decoded text, or the exception's message *)
}.

End JS.
Import JS.

(** ** The state of the background page *)

Inductive Tier := short | long.

Inductive NotificationType := native | page.

(** The [details] of a notification request. *)
Record Details := {
  title : JSValue;
  body : JSValue;
  d_url : JSValue;
  d_modHash : JSValue;
  d_markreadid : JSValue;
}.

(** A value of [notificationData]. *)
Record Metadata := {
  type : NotificationType;
  url : JSValue;
  modHash : JSValue;
  markreadid : JSValue;
}.

(** Messages the page sends to tabs. *)
Inductive TabMessage :=
| tb_show_page_notification (id : string) (title body : JSValue)
| tb_clear_page_notification (id : string)
| tb_cache_timeout (payload : Tier)
| tb_global_event (action : JSValue) (payload : JSValue).

Record Sender := { sender_tab : option nat }.

(** What the callback of a [chrome.tabs.query] does with the tabs. *)
Inductive TabsLoop :=
| to_reddit_pattern (m : TabMessage)                 (* query {url: 'https://*.reddit.com/*'}: every tab returned *)
| to_reddit_urls (m : TabMessage)                    (* query {}: tabs whose url includes 'reddit.com' *)
| to_reddit_urls_but (sender : Sender) (m : TabMessage). (* the same, skipping the sender's tab *)

Record Tab := { tab_id : nat; tab_url : string }.

(** The [chrome.tabs.sendMessage] calls of such a callback, in order. The
    third loop reads [sender.tab.id] at each tab and throws when the message
    did not come from a tab. *)
Definition recipients (loop : TabsLoop) (tabs : list Tab) : list (nat * TabMessage) + JSError :=
  match loop with
  | to_reddit_pattern m => inl (map (fun tab => (tab_id tab, m)) tabs)
  | to_reddit_urls m =>
      inl (map (fun tab => (tab_id tab, m))
             (List.filter (fun tab => includes "reddit.com" (tab_url tab)) tabs))
  | to_reddit_urls_but sender m =>
      match sender_tab sender, tabs with
      | None, _ :: _ => inr (TypeError "Cannot read properties of undefined (reading 'id')")
      | None, [] => inl []
      | Some from, _ =>
          inl (map (fun tab => (tab_id tab, m))
                 (List.filter
                    (fun tab => negb (Nat.eqb from (tab_id tab)) &&
                                includes "reddit.com" (tab_url tab)) tabs))
      end
  end.

Record AjaxOptions := {
  ajax_method : JSValue;
  ajax_url : string;
  ajax_data : JSValue;
  beforeSend_tokens : option JSValue;   (* sets 'Authorization: bearer ' + tokens.accessToken *)
}.

(** Calls to the host, in the order the script issues them. *)
Inductive Effect :=
| notifications_getPermissionLevel
| notifications_create (uuid : string) (title message : JSValue)
| notifications_clear (notificationID : string)
| tabs_query (loop : TabsLoop)
| post_read_message (id uh : JSValue)
| windows_getLastFocused_tabs_create (url : JSValue)
| runtime_reload
| cookies_get_token
| get_modmail
| ajax (options : AjaxOptions).

(** The function a timer runs when it fires. *)
Inductive Callback :=
| cb_clearNotification (id : string)
| cb_emptyCacheTimeout (timeoutDuration : jsnum) (cacheType : Tier).

Record Timer := {
  handle : nat;
  armed_at : Z;        (* clock reading when [setTimeout] was called *)
  delay : jsnum;       (* the delay handed to [setTimeout], in ms *)
  callback : Callback;
}.

Record State := {
  now : Z;
  notificationData : gmap string Metadata;
  TBsettingsObject : JSValue;
  timeouts_short : option nat;          (* cachedata.timeouts.short *)
  timeouts_long : option nat;           (* cachedata.timeouts.long *)
  currentDurations_short : jsnum;
  currentDurations_long : jsnum;
  localStorage : gmap string string;
  timers : list Timer;                  (* live timers of the page *)
  next_handle : nat;
  effects : list Effect;
}.

(** The page as the script's top level leaves it, before any callback. *)
Definition initial : State :=
  {| now := 0;
     notificationData := ∅;
     TBsettingsObject := JObj [];
     timeouts_short := None;
     timeouts_long := None;
     currentDurations_short := Int 0;
     currentDurations_long := Int 0;
     localStorage := ∅;
     timers := [];
     next_handle := 1;
     effects := [] |}.

Definition set_now (t : Z) (st : State) : State :=
  {| now := t; notificationData := notificationData st;
     TBsettingsObject := TBsettingsObject st;
     timeouts_short := timeouts_short st; timeouts_long := timeouts_long st;
     currentDurations_short := currentDurations_short st;
     currentDurations_long := currentDurations_long st;
     localStorage := localStorage st; timers := timers st;
     next_handle := next_handle st; effects := effects st |}.

Definition set_notificationData (d : gmap string Metadata) (st : State) : State :=
  {| now := now st; notificationData := d;
     TBsettingsObject := TBsettingsObject st;
     timeouts_short := timeouts_short st; timeouts_long := timeouts_long st;
     currentDurations_short := currentDurations_short st;
     currentDurations_long := currentDurations_long st;
     localStorage := localStorage st; timers := timers st;
     next_handle := next_handle st; effects := effects st |}.

Definition set_TBsettingsObject (v : JSValue) (st : State) : State :=
  {| now := now st; notificationData := notificationData st;
     TBsettingsObject := v;
     timeouts_short := timeouts_short st; timeouts_long := timeouts_long st;
     currentDurations_short := currentDurations_short st;
     currentDurations_long := currentDurations_long st;
     localStorage := localStorage st; timers := timers st;
     next_handle := next_handle st; effects := effects st |}.

Definition set_timeouts (t : Tier) (h : option nat) (st : State) : State :=
  {| now := now st; notificationData := notificationData st;
     TBsettingsObject := TBsettingsObject st;
     timeouts_short := match t with short => h | long => timeouts_short st end;
     timeouts_long := match t with long => h | short => timeouts_long st end;
     currentDurations_short := currentDurations_short st;
     currentDurations_long := currentDurations_long st;
     localStorage := localStorage st; timers := timers st;
     next_handle := next_handle st; effects := effects st |}.

Definition set_currentDurations (t : Tier) (d : jsnum) (st : State) : State :=
  {| now := now st; notificationData := notificationData st;
     TBsettingsObject := TBsettingsObject st;
     timeouts_short := timeouts_short st; timeouts_long := timeouts_long st;
     currentDurations_short := match t with short => d | long => currentDurations_short st end;
     currentDurations_long := match t with long => d | short => currentDurations_long st end;
     localStorage := localStorage st; timers := timers st;
     next_handle := next_handle st; effects := effects st |}.

Definition set_localStorage (s : gmap string string) (st : State) : State :=
  {| now := now st; notificationData := notificationData st;
     TBsettingsObject := TBsettingsObject st;
     timeouts_short := timeouts_short st; timeouts_long := timeouts_long st;
     currentDurations_short := currentDurations_short st;
     currentDurations_long := currentDurations_long st;
     localStorage := s; timers := timers st;
     next_handle := next_handle st; effects := effects st |}.

Definition set_timers (ts : list Timer) (n : nat) (st : State) : State :=
  {| now := now st; notificationData := notificationData st;
     TBsettingsObject := TBsettingsObject st;
     timeouts_short := timeouts_short st; timeouts_long := timeouts_long st;
     currentDurations_short := currentDurations_short st;
     currentDurations_long := currentDurations_long st;
     localStorage := localStorage st; timers := ts;
     next_handle := n; effects := effects st |}.

(** Record one call to the host. *)
Definition emit (e : Effect) (st : State) : State :=
  {| now := now st; notificationData := notificationData st;
     TBsettingsObject := TBsettingsObject st;
     timeouts_short := timeouts_short st; timeouts_long := timeouts_long st;
     currentDurations_short := currentDurations_short st;
     currentDurations_long := currentDurations_long st;
     localStorage := localStorage st; timers := timers st;
     next_handle := next_handle st; effects := effects st ++ [e] |}.

Definition timeouts (t : Tier) (st : State) : option nat :=
  match t with short => timeouts_short st | long => timeouts_long st end.

Definition currentDurations (t : Tier) (st : State) : jsnum :=
  match t with short => currentDurations_short st | long => currentDurations_long st end.

(** ** Timers: [setTimeout] and [clearTimeout] *)

(** [setTimeout(cb, ms)]: a fresh handle, returned to the caller. *)
Definition setTimeout (cb : Callback) (ms : jsnum) (st : State) : State * nat :=
  (set_timers
     (timers st ++ [{| handle := next_handle st; armed_at := now st;
                       delay := ms; callback := cb |}])
     (S (next_handle st)) st,
   next_handle st).

(** [clearTimeout(h)]: nothing happens on [undefined] or on a handle that is
    not live. *)
Definition without_handle (n : nat) (ts : list Timer) : list Timer :=
  List.filter (fun tm => negb (Nat.eqb (handle tm) n)) ts.

Definition clearTimeout (h : option nat) (st : State) : State :=
  match h with
  | None => st
  | Some n => set_timers (without_handle n (timers st)) (next_handle st) st
  end.

(** The moment a timer is due, for a delay the host does not clamp. *)
Definition due (tm : Timer) : Z :=
  match delay tm with
  | Int ms => armed_at tm + Z.max 0 ms
  | NaN => armed_at tm
  end.

(** ** Notification stuff *)

Definition metadata_of (t : NotificationType) (d : Details) : Metadata :=
  {| type := t; url := d_url d; modHash := d_modHash d; markreadid := d_markreadid d |}.

(** [sendNativeNotification], up to its first host call. [uuid] is what
    [uuidv4()] returns if [send] runs now; [has_getPermissionLevel] tells
    whether the host defines [chrome.notifications.getPermissionLevel]. *)
Definition send (uuid : string) (d : Details) (st : State) : State :=
  emit (notifications_create uuid (title d) (body d)) st.

Definition sendNativeNotification (has_getPermissionLevel : bool)
    (uuid : string) (d : Details) (st : State) : State :=
  if has_getPermissionLevel then emit notifications_getPermissionLevel st
  else send uuid d st.

(** The callback of [getPermissionLevel]: [send()] when granted, otherwise
    the promise is rejected and nothing else happens. *)
Definition on_permission (permission : string) (uuid : string) (d : Details)
    (st : State) : State :=
  if String.eqb permission "granted" then send uuid d st else st.

(** [sendPageNotification], up to the [chrome.tabs.query] call. *)
Definition sendPageNotification (uuid : string) (d : Details) (st : State) : State :=
  emit (tabs_query (to_reddit_pattern (tb_show_page_notification uuid (title d) (body d))))
    (set_notificationData (<[uuid := metadata_of page d]> (notificationData st)) st).

(** [clearNotification] *)
Definition clearNotification (notificationID : string) (st : State) : State :=
  match notificationData st !! notificationID with
  | None => st                                   (* already cleared *)
  | Some metadata =>
      match type metadata with
      | native => emit (notifications_clear notificationID) st
      | page =>
          set_notificationData (delete notificationID (notificationData st))
            (emit (tabs_query (to_reddit_pattern (tb_clear_page_notification notificationID))) st)
      end
  end.

(** The [then] callback of the [tb-notification] branch, run when the promise
    of [sendNotification] resolves with [id]. *)
Definition notificationTimeout : jsnum := Int 6000.

Definition arm_expiry (id : string) (st : State) : State :=
  fst (setTimeout (cb_clearNotification id) notificationTimeout st).

(** The callback of [chrome.notifications.create]: the record is stored under
    the id the host hands back and the promise resolves. *)
Definition on_created (notificationID : string) (d : Details) (st : State) : State :=
  arm_expiry notificationID
    (set_notificationData (<[notificationID := metadata_of native d]> (notificationData st)) st).

(** The callback of the [chrome.tabs.query] of [sendPageNotification]: the
    messages go out (a matter of the host) and the promise resolves. *)
Definition on_page_shown (notificationID : string) (st : State) : State :=
  arm_expiry notificationID st.

(** [onClickNotification]: [None] on normal completion, [Some e] when [e] is
    thrown. The throwing statement is [notificationData[notificationID].markreadid]. *)
Definition onClickNotification (notificationID : string) (st : State) : State * option JSError :=
  match notificationData st !! notificationID with
  | None =>
      (st, Some (TypeError "Cannot read properties of undefined (reading 'markreadid')"))
  | Some metadata =>
      let st1 :=
        if truthy (markreadid metadata)
        then emit (post_read_message (markreadid metadata) (modHash metadata)) st
        else st in
      let st2 := emit (windows_getLastFocused_tabs_create (url metadata)) st1 in
      (clearNotification notificationID st2, None)
  end.

(** The listener of [chrome.notifications.onClosed]. *)
Definition onClosed (id : string) (st : State) : State :=
  set_notificationData (delete id (notificationData st)) st.

(** ** Request stuff *)

Record RawCookie := {
  cookie_value : string;
  expirationDate : jsnum;      (* seconds; [NaN] for a session cookie *)
}.

(** What the page sees of the outside while one message is handled: the
    [k]-th read of the token cookie, the clock at that read, and whether the
    [k]-th GET of the modmail page gets to its [done] callback. *)
Record jqXHR := { status : Z; getAllResponseHeaders : string }.

Inductive AjaxOutcome :=
| ajax_done (data : JSValue) (textStatus : string) (x : jqXHR)
| ajax_fail (x : jqXHR) (textStatus : string) (errorThrown : string).

Record World := {
  uuid : string;
  has_getPermissionLevel : bool;
  cookies_get : nat -> option RawCookie;
  clock : nat -> Z;
  modmail_done : nat -> bool;
  ajax_result : AjaxOptions -> AjaxOutcome;
}.

(** How a promise ends. [never_settles]: no callback will ever resolve or
    reject it. [out_of_fuel]: the chain of callbacks is longer than the fuel. *)
Inductive Promise (A : Type) :=
| resolves (a : A)
| rejects (e : JSError)
| never_settles
| out_of_fuel.
Arguments resolves {A} a.
Arguments rejects {A} e.
Arguments never_settles {A}.
Arguments out_of_fuel {A}.

Definition is_base64_char (c : ascii) : bool :=
  let n := nat_of_ascii c in
  (((65 <=? n) && (n <=? 90)) || ((97 <=? n) && (n <=? 122)) ||
   ((48 <=? n) && (n <=? 57)) || (n =? 43) || (n =? 47))%nat.

Definition is_line_terminator (c : ascii) : bool :=
  let n := nat_of_ascii c in ((n =? 10) || (n =? 13))%nat.

Fixpoint has_line_terminator (s : string) : bool :=
  match s with
  | EmptyString => false
  | String c rest => is_line_terminator c || has_line_terminator rest
  end.

(** [s.replace(new RegExp('[^A-Za-z0-9+/].*?$'), '')]: the first character
    outside the alphabet that is followed, up to the end, by no line
    terminator, is dropped with everything after it. *)
Fixpoint strip_invalid (s : string) : string :=
  match s with
  | EmptyString => EmptyString
  | String c rest =>
      if is_base64_char c || has_line_terminator rest
      then String c (strip_invalid rest)
      else EmptyString
  end.

(** [timeNow > cookieExpiration] *)
Definition num_gt (a : Z) (b : jsnum) : bool :=
  match b with Int y => (y <? a)%Z | NaN => false end.

Section Background.

Context (B : Builtins).

(** [getOAuthTokens(tries)], from the [k]-th cookie read on. The result is how
    the returned promise ends and the host calls made on the way. *)
Fixpoint getOAuthTokens (fuel : nat) (w : World) (k : nat) (tries : Z)
  : Promise JSValue * list Effect :=
  match fuel with
  | O => (out_of_fuel, [])
  | S fuel' =>
      let rawCookie := cookies_get w k in
      let expired :=
        match rawCookie with
        | Some c => num_gt (clock w k) (num_mul (expirationDate c) (Int 1000))
        | None => false
        end in
      let unusable := match rawCookie with None => true | Some _ => expired end in
      if unusable && (tries <? 3)%Z then
        if modmail_done w k then
          (* getOAuthTokens(tries++).then(resolve): the argument is the value
             of [tries] before the increment, and a rejection of the inner
             promise is not passed on *)
          let '(inner, calls) := getOAuthTokens fuel' w (S k) tries in
          (match inner with
           | resolves v => resolves v
           | rejects _ => never_settles
           | never_settles => never_settles
           | out_of_fuel => out_of_fuel
           end,
           cookies_get_token :: get_modmail :: calls)
        else (never_settles, [cookies_get_token; get_modmail])
      else if unusable && (2 <? tries)%Z then
        (rejects (Error "user not logged into new modmail"), [cookies_get_token])
      else
        match rawCookie with
        | Some c =>
            let base64Cookie := strip_invalid (cookie_value c) in
            (* an exception in the cookie callback leaves the promise unsettled *)
            match atob B base64Cookie with
            | inl tokenData =>
                match JSON_parse B tokenData with
                | inl tokens => (resolves tokens, [cookies_get_token])
                | inr _ => (never_settles, [cookies_get_token])
                end
            | inr _ => (never_settles, [cookies_get_token])
            end
        | None => (never_settles, [cookies_get_token])
        end
  end.

(** Number of reads of the token cookie among the host calls. *)
Definition is_cookies_get (e : Effect) : bool :=
  match e with cookies_get_token => true | _ => false end.

Definition attempts (calls : list Effect) : nat :=
  length (List.filter is_cookies_get calls).

(** [s.split(sep)] for a non-empty separator. [skip] counts the characters of
    a separator still to be passed over, [cur] is the piece being read. *)
Fixpoint split_go (sep : string) (skip : nat) (cur : string) (s : string) : list string :=
  match s with
  | EmptyString => [cur]
  | String c rest =>
      match skip with
      | S n => split_go sep n cur rest
      | O =>
          if String.prefix sep s
          then cur :: split_go sep (String.length sep - 1) EmptyString rest
          else split_go sep 0 (cur +:+ String c EmptyString) rest
      end
  end.

Definition split (sep s : string) : list string := split_go sep 0 EmptyString s.

Definition is_digit (c : ascii) : bool :=
  let n := nat_of_ascii c in ((48 <=? n) && (n <=? 57))%nat.

Fixpoint all_digits (s : string) : bool :=
  match s with
  | EmptyString => true
  | String c rest => is_digit c && all_digits rest
  end.

(** [/^[0-9]+$/.test(s)] *)
Definition digits_only (s : string) : bool :=
  negb (String.eqb s EmptyString) && all_digits s.

(** [parseInt(s, 10)] on a string of decimal digits. *)
Fixpoint decimal (acc : Z) (s : string) : Z :=
  match s with
  | EmptyString => acc
  | String c rest => decimal (10 * acc + (Z.of_nat (nat_of_ascii c) - 48)) rest
  end.

(** [headerObject[itemName] = itemValue] *)
Fixpoint assign (k : string) (v : JSValue) (o : list (string * JSValue)) : list (string * JSValue) :=
  match o with
  | [] => [(k, v)]
  | (k', v') :: rest => if String.eqb k k' then (k, v) :: rest else (k', v') :: assign k v rest
  end.

(** [makeHeaderObject] *)
Definition makeHeaderObject (headerString : string) : list (string * JSValue) :=
  fold_left
    (fun headerObject item =>
       if String.eqb item EmptyString then headerObject
       else
         let itemArray := split ": " item in
         let itemName := nth 0 itemArray EmptyString in
         let itemValue :=
           match nth_error itemArray 1 with
           | Some v => if digits_only v then JNum (Int (decimal 0 v)) else JStr v
           | None => JUndefined
           end in
         assign itemName itemValue headerObject)
    (split (String "013" (String "010" EmptyString)) headerString) [].

(** What [makeRequest] resolves with: [{data, textStatus, jqXHR}] or
    [{jqXHR, textStatus, errorThrown}], the [jqXHR] carrying the header object. *)
Inductive RequestResult :=
| request_done (data : JSValue) (textStatus : string) (x : jqXHR)
    (allResponseHeaders : list (string * JSValue))
| request_failed (x : jqXHR) (textStatus : string) (errorThrown : string)
    (allResponseHeaders : list (string * JSValue)).

(** [makeRequest]: the promise always resolves. *)
Definition makeRequest (w : World) (options : AjaxOptions) : RequestResult :=
  match ajax_result w options with
  | ajax_done d t x => request_done d t x (makeHeaderObject (getAllResponseHeaders x))
  | ajax_fail x t e => request_failed x t e (makeHeaderObject (getAllResponseHeaders x))
  end.

(** ** Cache handling *)

Definition clear_tier (cacheType : Tier) (s : gmap string string) : gmap string string :=
  match cacheType with
  | short =>
      <["TBCache.Utils.noNotes" := "[]"]>
        (<["TBCache.Utils.noConfig" := "[]"]>
           (<["TBCache.Utils.noteCache" := "{}"]> s))
  | long =>
      <["TBCache.Utils.moderatedSubsData" := "[]"]>
        (<["TBCache.Utils.moderatedSubs" := "[]"]>
           (<["TBCache.Utils.noRules" := "[]"]>
              (<["TBCache.Utils.rulesCache" := "{}"]>
                 (<["TBCache.Utils.configCache" := "{}"]> s))))
  end.

(** [emptyCacheTimeout] *)
Definition emptyCacheTimeout (timeoutDuration : jsnum) (cacheType : Tier) (st : State) : State :=
  let st1 := clearTimeout (timeouts cacheType st) st in
  let timeoutMS := num_mul (num_mul timeoutDuration (Int 60)) (Int 1000) in
  let st2 := set_localStorage (clear_tier cacheType (localStorage st1)) st1 in
  let st3 := emit (tabs_query (to_reddit_urls (tb_cache_timeout cacheType))) st2 in
  let '(st4, h) := setTimeout (cb_emptyCacheTimeout timeoutDuration cacheType) timeoutMS st3 in
  set_timeouts cacheType (Some h) st4.

Definition storageShortLengthKey : string := "Toolbox.Utils.shortLength".
Definition storageLongLengthKey : string := "Toolbox.Utils.longLength".

(** The value of a length setting: the default when it is [undefined], the
    number itself, and [parseInt] of anything else. *)
Definition storage_length (default : Z) (v : JSValue) : jsnum :=
  match v with
  | JUndefined => Int default
  | JNum n => n
  | _ => parseInt B v
  end.

(** [initCachetimeout]: [None] on normal completion, [Some e] when reading
    [TBsettingsObject.tbsettings[...]] throws [e]. *)
Definition initCachetimeout (forceRefresh : bool) (st : State) : State * option JSError :=
  match member (TBsettingsObject st) "tbsettings" with
  | inr e => (st, Some e)
  | inl tbsettings =>
      match member tbsettings storageShortLengthKey with
      | inr e => (st, Some e)
      | inl sv =>
          let storageShortLength := storage_length 15 sv in
          let st1 :=
            if num_strict_neq storageShortLength (currentDurations short st) || forceRefresh
            then emptyCacheTimeout storageShortLength short
                   (set_currentDurations short storageShortLength st)
            else st in
          match member tbsettings storageLongLengthKey with
          | inr e => (st1, Some e)
          | inl lv =>
              let storageLongLength := storage_length 45 lv in
              let st2 :=
                if num_strict_neq storageLongLength (currentDurations long st1) || forceRefresh
                then emptyCacheTimeout storageLongLength long
                       (* cachedata.currentDurations.short = storageShortLength *)
                       (set_currentDurations short storageShortLength st1)
                else st1 in
              (st2, None)
          end
      end
  end.

(** The callback of [chrome.storage.local.get('tbsettings', ...)]. *)
Definition on_storage_loaded (sObject : JSValue) (st : State) : State * option JSError :=
  initCachetimeout true (set_TBsettingsObject sObject st).

(** ** Webextension messaging handling *)

Record Request := {
  req_action : string;
  req_globalEvent : JSValue;
  req_payload : JSValue;
  req_native : JSValue;
  req_details : Details;
  req_id : string;
  req_method : JSValue;
  req_endpoint : option string;     (* [None]: the message has no [endpoint] *)
  req_data : JSValue;
  req_oauth : JSValue;
  req_storageKey : string;
  req_inputValue : JSValue;
}.

(** What the listener's promise resolves with. *)
Inductive Response :=
| plain (v : JSValue)                                        (* [undefined], [true] *)
| error_response (errorThrown : string)                      (* {errorThrown} *)
| cache_response (value : JSValue) (errorThrown : option string)  (* {value, errorThrown?} *)
| request_response (r : RequestResult).

(** A registered handler; the [World] stands for what it reads of the host. *)
Definition Handler : Type :=
  World -> Request -> Sender -> State -> State * Promise Response.

(** [v === s] for a string literal [s]. *)
Definition is_string (v : JSValue) (s : string) : bool :=
  match v with JStr s' => String.eqb s' s | _ => false end.

Definition emit_all (calls : list Effect) (st : State) : State :=
  fold_left (fun s e => emit e s) calls st.

(** The promise of an [async] body that ran [f]: rejected when [f] threw. *)
Definition settle (r : State * option JSError) (v : JSValue) : State * Promise Response :=
  match r with
  | (st, Some e) => (st, rejects e)
  | (st, None) => (st, resolves (plain v))
  end.

(** The [tb-request] branch. *)
Definition tb_request (fuel : nat) (w : World) (request : Request) (st : State)
  : State * Promise Response :=
  match req_endpoint request with
  | None => (st, rejects (TypeError "Cannot read properties of undefined (reading 'startsWith')"))
  | Some endpoint =>
      if negb (startsWith "/" endpoint) then
        (st, resolves (error_response
                         ("Request endpoint '" +:+ endpoint +:+ "' does not start with a slash")))
      else
        let host := "https://" +:+ (if truthy (req_oauth request) then "oauth" else "old")
                    +:+ ".reddit.com" in
        let options tokens :=
          {| ajax_method := req_method request; ajax_url := host +:+ endpoint;
             ajax_data := req_data request; beforeSend_tokens := tokens |} in
        if truthy (req_oauth request) then
          match getOAuthTokens fuel w 0 1 with
          | (resolves tokens, calls) =>
              (emit (ajax (options (Some tokens))) (emit_all calls st),
               resolves (request_response (makeRequest w (options (Some tokens)))))
          | (rejects error, calls) =>
              (emit_all calls st, resolves (error_response (error_toString error)))
          | (never_settles, calls) => (emit_all calls st, never_settles)
          | (out_of_fuel, calls) => (emit_all calls st, out_of_fuel)
          end
        else
          (emit (ajax (options None)) st,
           resolves (request_response (makeRequest w (options None))))
  end.

(** The [tb-cache] branch. *)
Definition tb_cache (request : Request) (st : State) : State * Promise Response :=
  let method := req_method request in
  let storageKey := req_storageKey request in
  let inputValue := req_inputValue request in
  if is_string method "get" then
    match localStorage st !! storageKey with
    | None => (st, resolves (cache_response inputValue None))
    | Some storageString =>
        let '(value, errorThrown) :=
          match JSON_parse B storageString with
          | inl v => (v, None)
          | inr m => (inputValue, Some (error_toString (SyntaxError m)))
          end in
        let value' :=
          if is_null value && negb (is_null inputValue) then inputValue else value in
        (st, resolves (cache_response value' errorThrown))
    end
  else if is_string method "set" then
    let stored := match JSON_stringify B inputValue with
                  | Some s => s
                  | None => "undefined"
                  end in
    (set_localStorage (<[storageKey := stored]> (localStorage st)) st,
     resolves (plain JUndefined))
  else if is_string method "clear" then
    (set_localStorage ∅ st, resolves (plain JUndefined))
  else (st, resolves (plain JUndefined)).

(** The listener of [browser.runtime.onMessage]. *)
Definition onMessage (messageHandlers : gmap string Handler) (fuel : nat) (w : World)
    (request : Request) (sender : Sender) (st : State) : State * Promise Response :=
  match messageHandlers !! req_action request with
  | Some handler => handler w request sender st
  | None =>
      let action := req_action request in
      if String.eqb action "tb-reload" then
        (emit runtime_reload st, resolves (plain JUndefined))
      else if String.eqb action "tb-global" then
        let message := tb_global_event (req_globalEvent request) (req_payload request) in
        let st1 := emit (tabs_query (to_reddit_urls_but sender message)) st in
        if is_string (req_globalEvent request) "tb-settings-update" then
          settle (initCachetimeout false (set_TBsettingsObject (req_payload request) st1))
                 (JBool true)
        else (st1, resolves (plain (JBool true)))
      else if String.eqb action "tb-cache-force-timeout" then
        settle (initCachetimeout true st) JUndefined
      else if String.eqb action "tb-notification" then
        (if truthy (req_native request)
         then sendNativeNotification (has_getPermissionLevel w) (uuid w) (req_details request) st
         else sendPageNotification (uuid w) (req_details request) st,
         resolves (plain JUndefined))
      else if String.eqb action "tb-page-notification-click" then
        settle (onClickNotification (req_id request) st) JUndefined
      else if String.eqb action "tb-page-notification-close" then
        (clearNotification (req_id request) st, resolves (plain JUndefined))
      else if String.eqb action "tb-request" then
        tb_request fuel w request st
      else if String.eqb action "tb-cache" then
        tb_cache request st
      else (st, resolves (plain JUndefined))
  end.

(** The action names the listener has a branch for. *)
Definition builtin_actions : list string :=
  [ "tb-reload"; "tb-global"; "tb-cache-force-timeout"; "tb-notification";
    "tb-page-notification-click"; "tb-page-notification-close"; "tb-request";
    "tb-cache" ].

(** ** The event loop *)

Definition run_callback (cb : Callback) (st : State) : State :=
  match cb with
  | cb_clearNotification id => clearNotification id st
  | cb_emptyCacheTimeout timeoutDuration cacheType =>
      emptyCacheTimeout timeoutDuration cacheType st
  end.

(** A live timer fires: it leaves the live timers and its callback runs. *)
Definition fire (h : nat) (st : State) : State :=
  match List.find (fun tm => Nat.eqb (handle tm) h) (timers st) with
  | None => st
  | Some tm =>
      run_callback (callback tm)
        (set_timers (without_handle h (timers st)) (next_handle st) st)
  end.

Inductive Event :=
| message (request : Request) (sender : Sender) (w : World) (fuel : nat)
| timer_fires (h : nat)
| permission_level (permission : string) (uuid : string) (d : Details)
| notification_created (notificationID : string) (d : Details)
| page_notification_shown (notificationID : string)
| notification_clicked (notificationID : string)
| notification_closed (notificationID : string)
| storage_loaded (sObject : JSValue).

(** One turn of the event loop at clock reading [t]. *)
Definition turn (messageHandlers : gmap string Handler) (t : Z) (ev : Event) (st : State) : State :=
  let st := set_now t st in
  match ev with
  | message request sender w fuel => fst (onMessage messageHandlers fuel w request sender st)
  | timer_fires h => fire h st
  | permission_level permission uuid d => on_permission permission uuid d st
  | notification_created notificationID d => on_created notificationID d st
  | page_notification_shown notificationID => on_page_shown notificationID st
  | notification_clicked notificationID => fst (onClickNotification notificationID st)
  | notification_closed notificationID => onClosed notificationID st
  | storage_loaded sObject => fst (on_storage_loaded sObject st)
  end.

Definition run (messageHandlers : gmap string Handler) (evs : list (Z * Event)) (st : State) : State :=
  fold_left (fun s te => turn messageHandlers (fst te) (snd te) s) evs st.

(** ** The handler registry and the split-out notification handlers *)

(** [messageHandlers.set(action, handler)] on the [Map]. *)
Definition messageHandlers_set (action : string) (handler : Handler)
    (messageHandlers : gmap string Handler) : gmap string Handler :=
  <[action := handler]> messageHandlers.

(** [messageHandlers.get(action)] *)
Definition messageHandlers_get (action : string)
    (messageHandlers : gmap string Handler) : option Handler :=
  messageHandlers !! action.

Definition handle_tb_notification : Handler :=
  fun w request _ st =>
    (if truthy (req_native request)
     then sendNativeNotification (has_getPermissionLevel w) (uuid w) (req_details request) st
     else sendPageNotification (uuid w) (req_details request) st,
     resolves (plain JUndefined)).

Definition handle_tb_page_notification_click : Handler :=
  fun _ request _ st => settle (onClickNotification (req_id request) st) JUndefined.

Definition handle_tb_page_notification_close : Handler :=
  fun _ request _ st => (clearNotification (req_id request) st, resolves (plain JUndefined)).

(** The three registrations of the notification module, in source order. *)
Definition register_notification_handlers (messageHandlers : gmap string Handler)
  : gmap string Handler :=
  messageHandlers_set "tb-page-notification-close" handle_tb_page_notification_close
    (messageHandlers_set "tb-page-notification-click" handle_tb_page_notification_click
       (messageHandlers_set "tb-notification" handle_tb_notification messageHandlers)).

End Background.

Arguments messageHandlers_set action handler messageHandlers : simpl never.

(** ** Sample data used by the examples *)

Fixpoint decimal_prefix (acc : option Z) (s : string) : option Z :=
  match s with
  | EmptyString => acc
  | String c rest =>
      if is_digit c
      then decimal_prefix
             (Some (10 * default 0%Z acc + (Z.of_nat (nat_of_ascii c) - 48))%Z) rest
      else acc
  end.

(** An instance of the builtins, exact on the inputs the examples use:
    [parseInt] reads an unsigned decimal prefix; [JSON.parse] knows the two
    empty collections and [null]. *)
Definition sample_builtins : Builtins :=
  {| parseInt := fun v =>
       match v with
       | JNum n => n
       | JStr s => match decimal_prefix None s with Some z => Int z | None => NaN end
       | _ => NaN
       end;
     JSON_parse := fun s =>
       if String.eqb s "{}" then inl (JObj [])
       else if String.eqb s "[]" then inl (JArr [])
       else if String.eqb s "null" then inl JNull
       else inr ("Unexpected token in JSON at position 0");
     JSON_stringify := fun v =>
       match v with
       | JUndefined => None
       | JNull => Some "null"
       | JArr [] => Some "[]"
       | JObj [] => Some "{}"
       | _ => Some "{}"
       end;
     atob := fun s => inl s |}.

Definition sample_details : Details :=
  {| title := JStr "New modmail"; body := JStr "You have mail";
     d_url := JStr "https://mod.reddit.com/mail/all";
     d_modHash := JStr "abc123"; d_markreadid := JStr "t4_1" |}.

(** Nobody is logged in: the token cookie is never there, the modmail page
    always loads. *)
Definition logged_out : World :=
  {| uuid := "10000000-1000-4000-8000-100000000000";
     has_getPermissionLevel := true;
     cookies_get := fun _ => None;
     clock := fun k => (1000 * Z.of_nat k)%Z;
     modmail_done := fun _ => true;
     ajax_result := fun _ =>
       ajax_fail {| status := 401; getAllResponseHeaders := EmptyString |} "error" "Unauthorized" |}.

Definition sample_request (action : string) : Request :=
  {| req_action := action; req_globalEvent := JUndefined; req_payload := JUndefined;
     req_native := JBool false; req_details := sample_details;
     req_id := "10000000-1000-4000-8000-100000000000";
     req_method := JUndefined; req_endpoint := None; req_data := JUndefined;
     req_oauth := JUndefined; req_storageKey := "TBCache.Utils.noteCache";
     req_inputValue := JUndefined |}.

Definition sample_sender : Sender := {| sender_tab := Some 7 |}.

(** A native notification in the store, as [chrome.notifications.create]'s
    callback leaves it. *)
Definition native_shown : State :=
  on_created "10000000-1000-4000-8000-100000000000" sample_details initial.

(** A store whose note cache holds a string that is not JSON. *)
Definition corrupted_store : State :=
  set_localStorage (<["TBCache.Utils.noteCache" := "{oops"]> ∅) initial.

Definition cache_get_request : Request :=
  {| req_action := "tb-cache"; req_globalEvent := JUndefined; req_payload := JUndefined;
     req_native := JUndefined; req_details := sample_details; req_id := EmptyString;
     req_method := JStr "get"; req_endpoint := None; req_data := JUndefined;
     req_oauth := JUndefined; req_storageKey := "TBCache.Utils.noteCache";
     req_inputValue := JObj [] |}.

Definition stale_request : Request :=
  {| req_action := "tb-request"; req_globalEvent := JUndefined; req_payload := JUndefined;
     req_native := JUndefined; req_details := sample_details; req_id := EmptyString;
     req_method := JStr "GET"; req_endpoint := Some "api/foo"; req_data := JUndefined;
     req_oauth := JBool true; req_storageKey := EmptyString; req_inputValue := JUndefined |}.

Definition oauth_request : Request :=
  {| req_action := "tb-request"; req_globalEvent := JUndefined; req_payload := JUndefined;
     req_native := JUndefined; req_details := sample_details; req_id := EmptyString;
     req_method := JStr "GET"; req_endpoint := Some "/api/mod/conversations";
     req_data := JUndefined; req_oauth := JBool true; req_storageKey := EmptyString;
     req_inputValue := JUndefined |}.

(** Stored settings that set neither cache length. *)
Definition default_settings : JSValue := JObj [("tbsettings", JObj [])].

(** The page after the first cache init with [default_settings]. *)
Definition started : State :=
  fst (on_storage_loaded sample_builtins default_settings initial).

(** A page notification is requested at 0 ms, the tab query of
    [sendPageNotification] calls back at 2 ms, and the page closes the
    notification at 1000 ms. *)
Definition page_request : Request := sample_request "tb-notification".

Definition close_request : Request := sample_request "tb-page-notification-close".

Definition closed_early : State :=
  run sample_builtins ∅
    [ (0%Z, message page_request sample_sender logged_out 0);
      (2%Z, page_notification_shown "10000000-1000-4000-8000-100000000000");
      (1000%Z, message close_request sample_sender logged_out 0) ]
    initial.

(** The [k]-th read of the token cookie finds none, or an expired one. *)
Definition unusable_at (w : World) (k : nat) : bool :=
  match cookies_get w k with
  | None => true
  | Some c => num_gt (clock w k) (num_mul (expirationDate c) (Int 1000))
  end.

(** ** Timers of the cache tiers *)

Definition tier_eqb (a b : Tier) : bool :=
  match a, b with
  | short, short | long, long => true
  | _, _ => false
  end.

(** The timer re-runs [emptyCacheTimeout] for tier [t]. *)
Definition is_tier_timer (t : Tier) (tm : Timer) : bool :=
  match callback tm with
  | cb_emptyCacheTimeout _ t' => tier_eqb t t'
  | cb_clearNotification _ => false
  end.

(** The live timers of tier [t]. *)
Definition live (t : Tier) (st : State) : list Timer :=
  List.filter (is_tier_timer t) (timers st).

(** The timer runs [clearNotification(id)]. *)
Definition is_expiry_timer (id : string) (tm : Timer) : bool :=
  match callback tm with
  | cb_clearNotification id' => String.eqb id id'
  | cb_emptyCacheTimeout _ _ => false
  end.

Definition pending_expiry (id : string) (st : State) : list Timer :=
  List.filter (is_expiry_timer id) (timers st).

(** A sequence of runs of the clear-and-reschedule procedure. *)
Definition reconfigure (rs : list (jsnum * Tier)) (st : State) : State :=
  fold_left (fun s r => emptyCacheTimeout (fst r) (snd r) s) rs st.

(** The timer [emptyCacheTimeout(timeoutDuration, cacheType)] arms. *)
Definition tier_timer (timeoutDuration : jsnum) (cacheType : Tier) (st : State) : Timer :=
  {| handle := next_handle st; armed_at := now st;
     delay := num_mul (num_mul timeoutDuration (Int 60)) (Int 1000);
     callback := cb_emptyCacheTimeout timeoutDuration cacheType |}.

(** The timer the [then] callback of a notification request arms. *)
Definition expiry_timer (id : string) (st : State) : Timer :=
  {| handle := next_handle st; armed_at := now st;
     delay := Int 6000; callback := cb_clearNotification id |}.

(** The timers that survive [clearTimeout(cachedata.timeouts[cacheType])]. *)
Definition surviving (h : option nat) (ts : list Timer) : list Timer :=
  match h with
  | Some n => without_handle n ts
  | None => ts
  end.

(** Handles are handed out once and in increasing order, and a live timer
    re-runs [emptyCacheTimeout] for a tier exactly when its handle is the one
    [cachedata.timeouts] holds for that tier. *)
Record wf (st : State) : Prop := {
  wf_nodup : NoDup (map handle (timers st));
  wf_fresh : forall tm, In tm (timers st) -> handle tm < next_handle st;
  wf_recorded : forall t h, timeouts t st = Some h -> h < next_handle st;
  wf_tier : forall t tm, In tm (timers st) ->
              (is_tier_timer t tm = true <-> timeouts t st = Some (handle tm));
}.

(** Every tier has exactly one live timer. *)
Definition armed (st : State) : Prop := forall t, exists tm, live t st = [tm].

(** Two states with the same timers, handle counter and recorded handles. *)
Definition same_timers (st st' : State) : Prop :=
  timers st' = timers st /\
  next_handle st' = next_handle st /\
  forall t, timeouts t st' = timeouts t st.

(** A step that keeps the timer invariant, and one live timer per tier once
    that has been established. *)
Definition keeps_timers (st st' : State) : Prop :=
  wf st -> wf st' /\ (armed st -> armed st').

(** Every registered handler keeps the timer invariant. *)
Definition handlers_keep_timers (messageHandlers : gmap string Handler) : Prop :=
  forall action handler, messageHandlers !! action = Some handler ->
    forall w request sender st, keeps_timers st (fst (handler w request sender st)).

(** Some run of the procedure in [rs] is for tier [t]. *)
Definition reconfigured (t : Tier) (rs : list (jsnum * Tier)) : bool :=
  existsb (fun r => tier_eqb t (snd r)) rs.

(** ** The earlier revision of the listener *)

(** A handler as the earlier listener uses it: called within
    [Promise.resolve(...)], it returns a value or throws. *)
Definition SyncHandler : Type :=
  World -> Request -> Sender -> State -> State * (Response + JSError).

(** How a call of the earlier listener, which is not [async], ends. *)
Inductive Returned :=
| returned_promise (p : Promise Response)
| returned_undefined
| thrown (e : JSError).

Definition finish (r : State * option JSError) : State * Returned :=
  match r with
  | (st, Some e) => (st, thrown e)
  | (st, None) => (st, returned_undefined)
  end.

(** The earlier listener. Its [tb-global] branch has no [return]: control
    goes on to the tests that follow. *)
Definition onMessage_earlier (B : Builtins) (messageHandlers : gmap string SyncHandler)
    (w : World) (request : Request) (sender : Sender) (st : State) : State * Returned :=
  match messageHandlers !! req_action request with
  | Some handler =>
      match handler w request sender st with
      | (st', inl r) => (st', returned_promise (resolves r))
      | (st', inr e) => (st', thrown e)
      end
  | None =>
      let action := req_action request in
      let global :=
        if String.eqb action "tb-global" then
          let message := tb_global_event (req_globalEvent request) (req_payload request) in
          let st1 := emit (tabs_query (to_reddit_urls_but sender message)) st in
          if is_string (req_globalEvent request) "tb-settings-update"
          then initCachetimeout B false (set_TBsettingsObject (req_payload request) st1)
          else (st1, None)
        else (st, None) in
      match global with
      | (st1, Some e) => (st1, thrown e)
      | (st1, None) =>
          if String.eqb action "tb-cache-force-timeout" then
            finish (initCachetimeout B true st1)
          else if String.eqb action "tb-notification" then
            (if truthy (req_native request)
             then sendNativeNotification (has_getPermissionLevel w) (uuid w)
                    (req_details request) st1
             else sendPageNotification (uuid w) (req_details request) st1,
             returned_undefined)
          else if String.eqb action "tb-page-notification-click" then
            finish (onClickNotification (req_id request) st1)
          else if String.eqb action "tb-page-notification-close" then
            (clearNotification (req_id request) st1, returned_undefined)
          else if String.eqb action "tb-cache" then
            let method := req_method request in
            let storageKey := req_storageKey request in
            let inputValue := req_inputValue request in
            if is_string method "get" then
              match localStorage st1 !! storageKey with
              | None => (st1, returned_promise (resolves (cache_response inputValue None)))
              | Some storageString =>
                  let '(value, errorThrown) :=
                    match JSON_parse B storageString with
                    | inl v => (v, None)
                    | inr m => (inputValue, Some (error_toString (SyntaxError m)))
                    end in
                  let value' :=
                    if is_null value && negb (is_null inputValue) then inputValue else value in
                  (st1, returned_promise (resolves (cache_response value' errorThrown)))
              end
            else if is_string method "set" then
              let stored := match JSON_stringify B inputValue with
                            | Some s => s
                            | None => "undefined"
                            end in
              (set_localStorage (<[storageKey := stored]> (localStorage st1)) st1,
               returned_undefined)
            else if is_string method "clear" then
              (set_localStorage ∅ st1, returned_undefined)
            else (st1, returned_undefined)
          else (st1, returned_undefined)
      end
  end.

(** The promise an [async] function with the same body would return. *)
Definition as_promise (r : Returned) : Promise Response :=
  match r with
  | returned_promise p => p
  | returned_undefined => resolves (plain JUndefined)
  | thrown e => rejects e
  end.

(** ** Notification ids *)

(** The string [[1e7] + -1e3 + -4e3 + -8e3 + -1e11] evaluates to. *)
Definition uuid_template : string := "10000000-1000-4000-8000-100000000000".

(** [n.toString(16)] for a digit value. *)
Definition hex_digit (n : Z) : ascii :=
  if (n <? 10)%Z then ascii_of_nat (48 + Z.to_nat n) else ascii_of_nat (87 + Z.to_nat n).

(** [c ^ r & 15 >> c / 4]: the shift binds tightest, then the [&], then the
    [^]; [c / 4] is truncated by the shift. *)
Definition uuid_digit (c r : Z) : Z :=
  Z.lxor c (Z.land r (Z.shiftr 15 (c / 4))).

(** The characters [/[018]/g] matches, with their numeric value. *)
Definition uuid_hole (c : ascii) : option Z :=
  if Ascii.eqb c "0" then Some 0%Z
  else if Ascii.eqb c "1" then Some 1%Z
  else if Ascii.eqb c "8" then Some 8%Z
  else None.

(** The [replace] of [uuidv4]: each match, left to right, takes the next
    byte of [crypto.getRandomValues]; [random i] is the [i]-th byte drawn. *)
Fixpoint uuid_replace (s : string) (random : nat -> Z) (i : nat) : string :=
  match s with
  | EmptyString => EmptyString
  | String c rest =>
      match uuid_hole c with
      | Some v => String (hex_digit (uuid_digit v (random i))) (uuid_replace rest random (S i))
      | None => String c (uuid_replace rest random i)
      end
  end.

(** [uuidv4] *)
Definition uuidv4 (random : nat -> Z) : string := uuid_replace uuid_template random 0.

Definition is_hex (c : ascii) : bool :=
  let n := nat_of_ascii c in
  (((48 <=? n) && (n <=? 57)) || ((97 <=? n) && (n <=? 102)))%nat.

(** One of 8, 9, a, b: the variant digit of the UUID. *)
Definition is_variant (c : ascii) : bool :=
  Ascii.eqb c "8" || Ascii.eqb c "9" || Ascii.eqb c "a" || Ascii.eqb c "b".

(** The shape of a version 4 UUID: [p] is a pattern of [x] (a hex digit),
    [y] (a variant digit) and literal characters. *)
Fixpoint matches_pattern (p s : string) : bool :=
  match p, s with
  | EmptyString, EmptyString => true
  | String pc p', String c s' =>
      (if Ascii.eqb pc "x" then is_hex c
       else if Ascii.eqb pc "y" then is_variant c
       else Ascii.eqb pc c)
      && matches_pattern p' s'
  | _, _ => false
  end.

Definition uuid_v4_pattern : string := "xxxxxxxx-xxxx-4xxx-yxxx-xxxxxxxxxxxx".

(** ** Strings *)

Fixpoint all_base64 (s : string) : bool :=
  match s with
  | EmptyString => true
  | String c rest => is_base64_char c && all_base64 rest
  end.

(** [pieces.join(sep)] *)
Fixpoint join (sep : string) (pieces : list string) : string :=
  match pieces with
  | [] => EmptyString
  | [piece] => piece
  | piece :: rest => piece +:+ sep +:+ join sep rest
  end.

(** [s.slice(n)] *)
Fixpoint drop_chars (n : nat) (s : string) : string :=
  match n, s with
  | O, _ => s
  | S n', String _ rest => drop_chars n' rest
  | S _, EmptyString => EmptyString
  end.

(** What a value of the header object can be: [undefined] for a line without
    a colon and space, a non-negative number, or a string that is not made
    of digits only. *)
Definition header_value_ok (v : JSValue) : bool :=
  match v with
  | JUndefined => true
  | JNum (Int z) => (0 <=? z)%Z
  | JStr x => negb (digits_only x)
  | _ => false
  end.

(** ** Token cookies *)

(** The [k]-th read of the token cookie finds one that has not expired and
    decodes to [tokens]. *)
Definition usable_at (B : Builtins) (w : World) (k : nat) (tokens : JSValue) : Prop :=
  exists c text,
    cookies_get w k = Some c /\
    num_gt (clock w k) (num_mul (expirationDate c) (Int 1000)) = false /\
    atob B (strip_invalid (cookie_value c)) = inl text /\
    JSON_parse B text = inl tokens.

(** Builtins that decode the base64 text of the empty object. *)
Definition token_builtins : Builtins :=
  {| parseInt := parseInt sample_builtins;
     JSON_parse := JSON_parse sample_builtins;
     JSON_stringify := JSON_stringify sample_builtins;
     atob := fun s =>
       if String.eqb s "e30" then inl "{}"
       else inr "The string to be decoded is not correctly encoded." |}.

(** No cookie, and the modmail page cannot be fetched. *)
Definition offline : World :=
  {| uuid := "10000000-1000-4000-8000-100000000000";
     has_getPermissionLevel := true;
     cookies_get := fun _ => None;
     clock := fun k => (1000 * Z.of_nat k)%Z;
     modmail_done := fun _ => false;
     ajax_result := fun _ =>
       ajax_fail {| status := 0; getAllResponseHeaders := EmptyString |} "error" EmptyString |}.

(** The cookie turns up at the sixth read. *)
Definition late_cookie : World :=
  {| uuid := "10000000-1000-4000-8000-100000000000";
     has_getPermissionLevel := true;
     cookies_get := fun k =>
       if (k <? 5)%nat then None
       else Some {| cookie_value := "e30="; expirationDate := Int 2000000000 |};
     clock := fun k => (1700000000000 + 1000 * Z.of_nat k)%Z;
     modmail_done := fun _ => true;
     ajax_result := fun _ =>
       ajax_done JNull "success" {| status := 200; getAllResponseHeaders := EmptyString |} |}.

(** An unauthenticated request for a subreddit's about page. *)
Definition plain_request : Request :=
  {| req_action := "tb-request"; req_globalEvent := JUndefined; req_payload := JUndefined;
     req_native := JUndefined; req_details := sample_details; req_id := EmptyString;
     req_method := JStr "GET"; req_endpoint := Some "/r/toolbox/about.json";
     req_data := JUndefined; req_oauth := JBool false; req_storageKey := EmptyString;
     req_inputValue := JUndefined |}.

(** A [tb-cache] message. *)
Definition cache_request (method : string) (storageKey : string) (inputValue : JSValue)
  : Request :=
  {| req_action := "tb-cache"; req_globalEvent := JUndefined; req_payload := JUndefined;
     req_native := JUndefined; req_details := sample_details; req_id := EmptyString;
     req_method := JStr method; req_endpoint := None; req_data := JUndefined;
     req_oauth := JUndefined; req_storageKey := storageKey;
     req_inputValue := inputValue |}.

(** Settings whose short length is not a number. *)
Definition odd_settings : JSValue :=
  JObj [("tbsettings", JObj [("Toolbox.Utils.shortLength", JStr "soon")])].

(** Settings that ask for 5 and 60 minutes, the first as a string. *)
Definition custom_settings : JSValue :=
  JObj [("tbsettings",
         JObj [("Toolbox.Utils.shortLength", JStr "5");
               ("Toolbox.Utils.longLength", JNum (Int 60))])].

(** [minutes * 60 * 1000] *)
Definition minutes_ms (minutes : jsnum) : jsnum :=
  num_mul (num_mul minutes (Int 60)) (Int 1000).

(** Events after the first cache init: a notification comes and goes, the
    short tier's timer fires, the settings change, the cache is refreshed. *)
Definition busy_day : list (Z * Event) :=
  [ (100%Z, message page_request sample_sender logged_out 0);
    (101%Z, page_notification_shown "10000000-1000-4000-8000-100000000000");
    (6101%Z, timer_fires 3);
    (900000%Z, timer_fires 1);
    (900500%Z, message (sample_request "tb-cache-force-timeout") sample_sender logged_out 0);
    (2000000%Z, timer_fires 2) ].

(** A [tb-global] message that announces new settings. *)
Definition settings_update (payload : JSValue) : Request :=
  {| req_action := "tb-global"; req_globalEvent := JStr "tb-settings-update";
     req_payload := payload; req_native := JUndefined; req_details := sample_details;
     req_id := EmptyString; req_method := JUndefined; req_endpoint := None;
     req_data := JUndefined; req_oauth := JUndefined; req_storageKey := EmptyString;
     req_inputValue := JUndefined |}.

Definition three_tabs : list Tab :=
  [ {| tab_id := 7; tab_url := "https://www.reddit.com/r/toolbox" |};
    {| tab_id := 8; tab_url := "https://example.org/" |};
    {| tab_id := 9; tab_url := "https://mod.reddit.com/mail/all" |} ].

(** ** Cache keys *)

(** The value [emptyCacheTimeout] writes under a key of the tier, if the key
    is one of the tier's. *)
Definition tier_sentinel (cacheType : Tier) (key : string) : option string :=
  match cacheType with
  | short =>
      if String.eqb key "TBCache.Utils.noteCache" then Some "{}"
      else if String.eqb key "TBCache.Utils.noConfig" then Some "[]"
      else if String.eqb key "TBCache.Utils.noNotes" then Some "[]"
      else None
  | long =>
      if String.eqb key "TBCache.Utils.configCache" then Some "{}"
      else if String.eqb key "TBCache.Utils.rulesCache" then Some "{}"
      else if String.eqb key "TBCache.Utils.noRules" then Some "[]"
      else if String.eqb key "TBCache.Utils.moderatedSubs" then Some "[]"
      else if String.eqb key "TBCache.Utils.moderatedSubsData" then Some "[]"
      else None
  end.

(** States that differ in the log of host calls only. *)
Definition same_page (st st' : State) : Prop :=
  now st' = now st /\
  notificationData st' = notificationData st /\
  TBsettingsObject st' = TBsettingsObject st /\
  localStorage st' = localStorage st /\
  (forall t, currentDurations t st' = currentDurations t st) /\
  same_timers st st'.

(** * Properties *)

(** Case analysis on every test of a conditional in the goal. *)
Ltac split_ifs :=
  repeat match goal with
    | |- context [if ?b then _ else _] => destruct b eqn:?
    end.

(** ** Notifications *)

Lemma set_notificationData_id (st : State) :
  set_notificationData (notificationData st) st = st.
Proof. by destruct st. Qed.

Lemma clearNotification_absent (id : string) (st : State) :
  notificationData st !! id = None -> clearNotification id st = st.
Proof. intros H. unfold clearNotification. by rewrite H. Qed.

Lemma clearNotification_page (id : string) (m : Metadata) (st : State) :
  notificationData st !! id = Some m -> type m = page ->
  clearNotification id st =
    set_notificationData (delete id (notificationData st))
      (emit (tabs_query (to_reddit_pattern (tb_clear_page_notification id))) st).
Proof. intros H Ht. unfold clearNotification. by rewrite H, Ht. Qed.

Lemma clearNotification_native (id : string) (m : Metadata) (st : State) :
  notificationData st !! id = Some m -> type m = native ->
  clearNotification id st = emit (notifications_clear id) st.
Proof. intros H Ht. unfold clearNotification. by rewrite H, Ht. Qed.

Lemma onClosed_absent (id : string) (st : State) :
  notificationData st !! id = None -> onClosed id st = st.
Proof.
  intros H. unfold onClosed. rewrite delete_id by done. apply set_notificationData_id.
Qed.

(** C2, as stated, fails: for a native notification [clearNotification] keeps
    the record, and a second call issues a second host-level clear. *)
Lemma clearNotification_native_twice :
  let id := "10000000-1000-4000-8000-100000000000" in
  is_Some (notificationData (clearNotification id native_shown) !! id) /\
  effects (clearNotification id native_shown) = [notifications_clear id] /\
  effects (clearNotification id (clearNotification id native_shown)) =
    [notifications_clear id; notifications_clear id].
Proof.
  cbn zeta. split; [|split].
  - vm_compute. eauto.
  - vm_compute. reflexivity.
  - vm_compute. reflexivity.
Qed.

(** C2 (amended): [clearNotification] is a no-op without a record; for a page
    notification it broadcasts the clear message and deletes the record, so a
    second call does nothing; for a native notification it asks the host to
    clear and keeps the record, so a second call asks the host again; the
    host's close event deletes the record, after which a further call does
    nothing. It never throws (it is a total function of the state). *)
Theorem clearNotification_by_variant (id : string) (st : State) :
  match notificationData st !! id with
  | None => clearNotification id st = st
  | Some m =>
      match type m with
      | page =>
          clearNotification id st =
            set_notificationData (delete id (notificationData st))
              (emit (tabs_query (to_reddit_pattern (tb_clear_page_notification id))) st) /\
          notificationData (clearNotification id st) !! id = None /\
          clearNotification id (clearNotification id st) = clearNotification id st
      | native =>
          clearNotification id st = emit (notifications_clear id) st /\
          notificationData (clearNotification id st) !! id = Some m /\
          clearNotification id (clearNotification id st) =
            emit (notifications_clear id) (emit (notifications_clear id) st) /\
          clearNotification id (onClosed id (clearNotification id st)) =
            onClosed id (clearNotification id st)
      end
  end.
Proof.
  destruct (notificationData st !! id) as [m|] eqn:Hm.
  - destruct (type m) eqn:Ht.
    + rewrite (clearNotification_native id m st Hm Ht).
      split; [done|]. split; [done|]. split.
      * by apply (clearNotification_native id m).
      * apply clearNotification_absent. cbn. apply lookup_delete_eq.
    + rewrite (clearNotification_page id m st Hm Ht).
      split; [done|].
      assert (notificationData
                (set_notificationData (delete id (notificationData st))
                   (emit (tabs_query (to_reddit_pattern (tb_clear_page_notification id))) st))
                !! id = None) as Hgone by (cbn; apply lookup_delete_eq).
      split; [done|]. by apply clearNotification_absent.
  - by apply clearNotification_absent.
Qed.

(** C10: without a record, [onClickNotification] throws a [TypeError] at the
    read of [markreadid], before any host call, whereas clearing and the close
    event are no-ops; the click message makes the listener's promise reject
    with that error. *)
Theorem onClickNotification_without_record (id : string) (st : State) :
  notificationData st !! id = None ->
  onClickNotification id st =
    (st, Some (TypeError "Cannot read properties of undefined (reading 'markreadid')")) /\
  clearNotification id st = st /\
  onClosed id st = st /\
  forall B fuel w sender request,
    req_action request = "tb-page-notification-click" ->
    req_id request = id ->
    onMessage B ∅ fuel w request sender st =
      (st, rejects (TypeError "Cannot read properties of undefined (reading 'markreadid')")).
Proof.
  intros H. repeat split.
  - unfold onClickNotification. by rewrite H.
  - by apply clearNotification_absent.
  - by apply onClosed_absent.
  - intros B fuel w sender request Ha Hid. unfold onMessage.
    rewrite lookup_empty, Ha. cbn. rewrite Hid.
    unfold onClickNotification. by rewrite H.
Qed.

Lemma onClickNotification_without_record_witness :
  onClickNotification "10000000-1000-4000-8000-100000000000" initial =
    (initial, Some (TypeError "Cannot read properties of undefined (reading 'markreadid')")).
Proof.
  apply (onClickNotification_without_record "10000000-1000-4000-8000-100000000000" initial).
  reflexivity.
Defined.

(** ** The handler registry *)

(** C5, as stated, fails: a second registration for [tb-notification] goes
    through and the handler registered first is gone. *)
Lemma second_registration_replaces :
  let first := handle_tb_page_notification_close in
  let second := handle_tb_page_notification_click in
  first <> second /\
  messageHandlers_get "tb-notification"
    (messageHandlers_set "tb-notification" second
       (messageHandlers_set "tb-notification" first ∅)) = Some second.
Proof.
  cbn zeta. split.
  - intros Heq.
    assert (snd (handle_tb_page_notification_close logged_out
                   (sample_request "tb-notification") sample_sender initial) =
            snd (handle_tb_page_notification_click logged_out
                   (sample_request "tb-notification") sample_sender initial)) as Hr
      by (by rewrite Heq).
    vm_compute in Hr. discriminate Hr.
  - unfold messageHandlers_get, messageHandlers_set. apply lookup_insert_eq.
Qed.

(** C5 (amended): the registry holds at most one handler per action, and a
    registration for an action that already has a handler replaces it without
    an error: the last registration wins and the other actions keep theirs. *)
Theorem messageHandlers_set_last_wins (action : string) (first second : Handler)
    (messageHandlers : gmap string Handler) :
  messageHandlers_get action
    (messageHandlers_set action second (messageHandlers_set action first messageHandlers))
    = Some second /\
  messageHandlers_set action second (messageHandlers_set action first messageHandlers)
    = messageHandlers_set action second messageHandlers /\
  forall other, other <> action ->
    messageHandlers_get other
      (messageHandlers_set action second (messageHandlers_set action first messageHandlers))
    = messageHandlers_get other messageHandlers.
Proof.
  unfold messageHandlers_get, messageHandlers_set. split; [|split].
  - apply lookup_insert_eq.
  - apply insert_insert_eq.
  - intros other Hne. by rewrite !lookup_insert_ne.
Qed.

(** ** The message listener *)

Lemma eqb_builtin_false (action name : string) :
  ~ In action builtin_actions -> In name builtin_actions -> String.eqb action name = false.
Proof.
  intros Hnot Hin. apply String.eqb_neq. intros ->. by apply Hnot.
Qed.

(** C6: a message whose action has no registered handler and no branch in the
    listener leaves the page as it was (no host call, no state change) and the
    listener's promise resolves with [undefined]: nothing is thrown and the
    sender gets no error. *)
Theorem unknown_action_dropped (B : Builtins) (messageHandlers : gmap string Handler)
    (fuel : nat) (w : World) (request : Request) (sender : Sender) (st : State) :
  messageHandlers !! req_action request = None ->
  ~ In (req_action request) builtin_actions ->
  onMessage B messageHandlers fuel w request sender st = (st, resolves (plain JUndefined)).
Proof.
  intros Hnone Hnot. unfold onMessage, Handler in *. rewrite Hnone. cbn zeta.
  rewrite !(eqb_builtin_false _ _ Hnot); [done | simpl; tauto ..].
Qed.

Lemma unknown_action_dropped_witness :
  onMessage sample_builtins (register_notification_handlers ∅) 5 logged_out
    (sample_request "tb-some-newer-action") sample_sender native_shown
  = (native_shown, resolves (plain JUndefined)).
Proof.
  apply (unknown_action_dropped sample_builtins (register_notification_handlers ∅) 5
           logged_out (sample_request "tb-some-newer-action") sample_sender native_shown).
  - vm_compute. reflexivity.
  - simpl. intros H. repeat (destruct H as [H|H]; [discriminate H|]). exact H.
Defined.

(** C8: a [tb-request] message whose endpoint does not start with a slash is
    answered with [{errorThrown}]: the promise resolves (nothing is thrown)
    and the page is unchanged, so no cookie read, no modmail GET and no
    [$.ajax] call is issued, whatever [oauth] says. *)
Theorem tb_request_without_slash (B : Builtins) (messageHandlers : gmap string Handler)
    (fuel : nat) (w : World) (request : Request) (sender : Sender) (st : State)
    (endpoint : string) :
  messageHandlers !! "tb-request" = None ->
  req_action request = "tb-request" ->
  req_endpoint request = Some endpoint ->
  startsWith "/" endpoint = false ->
  onMessage B messageHandlers fuel w request sender st =
    (st, resolves (error_response
                     ("Request endpoint '" +:+ endpoint +:+ "' does not start with a slash"))).
Proof.
  intros Hnone Ha He Hs. unfold onMessage, Handler in *. rewrite Ha, Hnone. cbn.
  unfold tb_request. by rewrite He, Hs.
Qed.

Lemma tb_request_without_slash_witness :
  onMessage sample_builtins ∅ 5 logged_out stale_request sample_sender initial =
    (initial, resolves (error_response "Request endpoint 'api/foo' does not start with a slash")).
Proof.
  apply (tb_request_without_slash sample_builtins ∅ 5 logged_out stale_request sample_sender
           initial "api/foo"); reflexivity.
Defined.

Lemma error_toString_nonempty (e : JSError) : error_toString e <> EmptyString.
Proof.
  unfold error_toString. destruct e as [m|m|m|m]; destruct m; cbn; discriminate.
Qed.

(** C9: when the stored string does not parse, the answer to a cache [get]
    is the caller's default value together with a non-empty [errorThrown],
    the text of the [SyntaxError]; the promise resolves and the page is
    unchanged. *)
Theorem tb_cache_get_corrupted (B : Builtins) (messageHandlers : gmap string Handler)
    (fuel : nat) (w : World) (request : Request) (sender : Sender) (st : State)
    (storageString message : string) :
  messageHandlers !! "tb-cache" = None ->
  req_action request = "tb-cache" ->
  req_method request = JStr "get" ->
  localStorage st !! req_storageKey request = Some storageString ->
  JSON_parse B storageString = inr message ->
  onMessage B messageHandlers fuel w request sender st =
    (st, resolves (cache_response (req_inputValue request)
                     (Some (error_toString (SyntaxError message))))) /\
  error_toString (SyntaxError message) <> EmptyString.
Proof.
  intros Hnone Ha Hm Hs Hp. split; [|apply error_toString_nonempty].
  unfold onMessage, Handler in *. rewrite Ha, Hnone. cbn.
  unfold tb_cache. rewrite Hm. cbn. rewrite Hs, Hp.
  by destruct (req_inputValue request).
Qed.

Lemma tb_cache_get_corrupted_witness :
  onMessage sample_builtins ∅ 0 logged_out cache_get_request sample_sender corrupted_store =
    (corrupted_store,
     resolves (cache_response (JObj [])
                 (Some "SyntaxError: Unexpected token in JSON at position 0"))).
Proof.
  apply (tb_cache_get_corrupted sample_builtins ∅ 0 logged_out cache_get_request sample_sender
           corrupted_store "{oops" "Unexpected token in JSON at position 0");
    reflexivity.
Defined.

(** ** Token retrieval *)


(** Whenever every read finds the cookie missing or expired and every GET of
    the modmail page succeeds, the retrieval is still going on when the fuel
    is spent, whatever the fuel. *)
Lemma getOAuthTokens_unusable_cookie (B : Builtins) (w : World) (fuel k : nat) :
  (forall i, unusable_at w i = true) ->
  (forall i, modmail_done w i = true) ->
  getOAuthTokens B fuel w k 1 =
    (out_of_fuel, concat (repeat [cookies_get_token; get_modmail] fuel)).
Proof.
  intros Hc Hg. revert k. induction fuel as [|fuel IH]; intros k; [reflexivity|].
  cbn [getOAuthTokens]. specialize (Hc k). unfold unusable_at in Hc.
  destruct (cookies_get w k) as [c|]; cbn; rewrite ?Hc; cbn; by rewrite Hg, IH.
Qed.

Lemma getOAuthTokens_logged_out (B : Builtins) (fuel k : nat) :
  getOAuthTokens B fuel logged_out k 1 =
    (out_of_fuel, concat (repeat [cookies_get_token; get_modmail] fuel)).
Proof. by apply getOAuthTokens_unusable_cookie. Qed.

Lemma attempts_logged_out (fuel : nat) :
  attempts (concat (repeat [cookies_get_token; get_modmail] fuel)) = fuel.
Proof.
  unfold attempts. induction fuel as [|fuel IH]; [reflexivity|].
  cbn. by rewrite IH.
Qed.

(** C1, on the code: with the token cookie never there, [getOAuthTokens()]
    reads the cookie once per unit of fuel and is still retrying when the
    fuel is gone, for every amount of fuel; it never rejects, and the
    [tb-request] message that asked for the token is never answered. *)
Theorem getOAuthTokens_retries_without_bound (B : Builtins) (fuel : nat) :
  fst (getOAuthTokens B fuel logged_out 0 1) = out_of_fuel /\
  attempts (snd (getOAuthTokens B fuel logged_out 0 1)) = fuel /\
  snd (onMessage B ∅ fuel logged_out oauth_request sample_sender initial) = out_of_fuel.
Proof.
  rewrite getOAuthTokens_logged_out. cbn [fst snd]. split; [done|]. split.
  - apply attempts_logged_out.
  - unfold onMessage. rewrite lookup_empty. cbn. unfold tb_request. cbn.
    by rewrite getOAuthTokens_logged_out.
Qed.

(** ** Cache timeouts *)

Lemma emptyCacheTimeout_timers (d : jsnum) (t : Tier) (st : State) :
  timers (emptyCacheTimeout d t st) =
    (match timeouts t st with
     | Some h => without_handle h (timers st)
     | None => timers st
     end ++ [tier_timer d t st])%list.
Proof.
  unfold emptyCacheTimeout, clearTimeout, tier_timer.
  destruct (timeouts t st); destruct t; reflexivity.
Qed.

Lemma emptyCacheTimeout_next_handle (d : jsnum) (t : Tier) (st : State) :
  next_handle (emptyCacheTimeout d t st) = S (next_handle st).
Proof.
  unfold emptyCacheTimeout, clearTimeout.
  destruct (timeouts t st); destruct t; reflexivity.
Qed.

Lemma emptyCacheTimeout_timeouts (d : jsnum) (t t' : Tier) (st : State) :
  timeouts t' (emptyCacheTimeout d t st) =
    if tier_eqb t' t then Some (next_handle st) else timeouts t' st.
Proof.
  unfold emptyCacheTimeout, clearTimeout.
  destruct (timeouts t st); destruct t, t'; reflexivity.
Qed.

Lemma emptyCacheTimeout_currentDurations (d : jsnum) (t t' : Tier) (st : State) :
  currentDurations t' (emptyCacheTimeout d t st) = currentDurations t' st.
Proof.
  unfold emptyCacheTimeout, clearTimeout.
  destruct (timeouts t st); destruct t, t'; reflexivity.
Qed.

Lemma currentDurations_long_set_short (d : jsnum) (st : State) :
  currentDurations long (set_currentDurations short d st) = currentDurations long st.
Proof. reflexivity. Qed.

Lemma initCachetimeout_currentDurations_long (B : Builtins) (forceRefresh : bool) (st : State) :
  currentDurations long (fst (initCachetimeout B forceRefresh st)) = currentDurations long st.
Proof.
  unfold initCachetimeout.
  destruct (member (TBsettingsObject st) "tbsettings") as [tbsettings|e]; [|reflexivity].
  destruct (member tbsettings storageShortLengthKey) as [sv|e]; [|reflexivity].
  destruct (member tbsettings storageLongLengthKey) as [lv|e]; cbn [fst];
    split_ifs;
    repeat first [ rewrite emptyCacheTimeout_currentDurations
                 | rewrite currentDurations_long_set_short ];
    reflexivity.
Qed.

(** C3, on the code: no run of [initCachetimeout] changes the duration
    recorded for the long tier, which stays at its initial 0. After the first
    cache init with the default 45 minutes, a settings update that again
    yields 45 therefore runs [emptyCacheTimeout] for the long tier once more
    (one more broadcast, the timer replaced), while the short tier, whose
    duration was recorded, is left alone. *)
Theorem long_duration_never_recorded :
  (forall B forceRefresh st,
     currentDurations long (fst (initCachetimeout B forceRefresh st)) =
       currentDurations long st) /\
  let again := fst (initCachetimeout sample_builtins false started) in
  currentDurations short started = Int 15 /\
  currentDurations long started = Int 0 /\
  timeouts long started = Some 2 /\
  timeouts long again = Some 3 /\
  timeouts short again = timeouts short started /\
  effects again =
    (effects started ++ [tabs_query (to_reddit_urls (tb_cache_timeout long))])%list.
Proof.
  split; [apply initCachetimeout_currentDurations_long|].
  vm_compute. repeat split; reflexivity.
Qed.

(** The sibling path: the short tier's duration is recorded by every run
    that completes. *)
Lemma short_duration_recorded (B : Builtins) (forceRefresh : bool) (st st1 : State)
    (tbsettings sv : JSValue) :
  member (TBsettingsObject st) "tbsettings" = inl tbsettings ->
  member tbsettings storageShortLengthKey = inl sv ->
  initCachetimeout B forceRefresh st = (st1, None) ->
  currentDurations short st1 = storage_length B 15 sv.
Proof.
  intros Ht Hs Hrun. unfold initCachetimeout in Hrun. rewrite Ht, Hs in Hrun.
  set (d := storage_length B 15 sv) in *.
  destruct (member tbsettings storageLongLengthKey) as [lv|e]; [|discriminate].
  injection Hrun as <-.
  split_ifs; rewrite ?emptyCacheTimeout_currentDurations; try reflexivity.
  match goal with
  | H : num_strict_neq d _ || _ = false |- _ => apply orb_false_iff in H as [Hneq _]
  end.
  cbn in *. unfold num_strict_neq in Hneq. destruct d as [|x]; [done|].
  destruct (currentDurations_short st) as [|y]; [done|].
  apply negb_false_iff, Z.eqb_eq in Hneq. by subst.
Qed.

(** *** One live timer per tier *)

Lemma In_without_handle (h : nat) (tm : Timer) (ts : list Timer) :
  In tm (without_handle h ts) <-> In tm ts /\ handle tm <> h.
Proof.
  unfold without_handle. rewrite List.filter_In, negb_true_iff, Nat.eqb_neq. tauto.
Qed.

Lemma NoDup_handles_filter (p : Timer -> bool) (ts : list Timer) :
  NoDup (map handle ts) -> NoDup (map handle (List.filter p ts)).
Proof.
  induction ts as [|tm ts IH]; cbn; intros Hnd; [constructor|].
  apply NoDup_cons in Hnd as [Hnotin Hnd].
  destruct (p tm); cbn; [|by apply IH].
  apply NoDup_cons. split; [|by apply IH].
  rewrite list_elem_of_In, in_map_iff in *. intros (x & Hx & Hin).
  apply Hnotin. exists x. split; [done|]. by apply List.filter_In in Hin as [Hin _].
Qed.

Lemma filter_none (p : Timer -> bool) (ts : list Timer) :
  (forall tm, In tm ts -> p tm = false) -> List.filter p ts = [].
Proof.
  induction ts as [|tm ts IH]; cbn; intros H; [done|].
  rewrite (H tm) by auto. apply IH. auto.
Qed.

Lemma filter_filter_absorb (p q : Timer -> bool) (ts : list Timer) :
  (forall tm, In tm ts -> q tm = false -> p tm = false) ->
  List.filter p (List.filter q ts) = List.filter p ts.
Proof.
  induction ts as [|tm ts IH]; cbn; intros H; [done|].
  destruct (q tm) eqn:Hq; cbn.
  - destruct (p tm); [f_equal|]; apply IH; auto.
  - rewrite (H tm) by auto. apply IH. auto.
Qed.

Lemma In_surviving (h : option nat) (tm : Timer) (ts : list Timer) :
  In tm (surviving h ts) <-> In tm ts /\ h <> Some (handle tm).
Proof.
  destruct h as [n|]; cbn.
  - rewrite In_without_handle. split; intros [? Hne]; split; try done; congruence.
  - split; [intros ?; split; [done | discriminate] | tauto].
Qed.

Lemma NoDup_handles_surviving (h : option nat) (ts : list Timer) :
  NoDup (map handle ts) -> NoDup (map handle (surviving h ts)).
Proof. destruct h; [apply NoDup_handles_filter | done]. Qed.

Lemma emptyCacheTimeout_timers_surviving (d : jsnum) (t : Tier) (st : State) :
  timers (emptyCacheTimeout d t st) =
    (surviving (timeouts t st) (timers st) ++ [tier_timer d t st])%list.
Proof. apply emptyCacheTimeout_timers. Qed.

Lemma tier_eqb_eq (a b : Tier) : tier_eqb a b = true <-> a = b.
Proof. destruct a, b; cbn; split; congruence. Qed.

Lemma tier_eqb_refl (a : Tier) : tier_eqb a a = true.
Proof. by destruct a. Qed.

Lemma is_tier_timer_unique (t t' : Tier) (tm : Timer) :
  is_tier_timer t tm = true -> is_tier_timer t' tm = true -> t = t'.
Proof.
  unfold is_tier_timer. destruct (callback tm) as [|d c]; [discriminate|].
  rewrite !tier_eqb_eq. congruence.
Qed.

Lemma wf_initial : wf initial.
Proof.
  constructor; cbn.
  - constructor.
  - tauto.
  - intros []; discriminate.
  - tauto.
Qed.

Lemma emptyCacheTimeout_wf (d : jsnum) (t : Tier) (st : State) :
  wf st -> wf (emptyCacheTimeout d t st).
Proof.
  intros [Hnd Hfresh Hrec Htier]. constructor.
  - rewrite emptyCacheTimeout_timers_surviving, map_app. cbn.
    apply NoDup_app. split; [by apply NoDup_handles_surviving|]. split; [|apply NoDup_singleton].
    intros h Hin Hnew. apply list_elem_of_In in Hin. apply list_elem_of_In in Hnew.
    apply in_map_iff in Hin as (tm & <- & Hin). apply In_surviving in Hin as [Hin _].
    destruct Hnew as [Hnew|[]]. specialize (Hfresh tm Hin). lia.
  - intros tm. rewrite emptyCacheTimeout_timers_surviving, emptyCacheTimeout_next_handle.
    rewrite in_app_iff, In_surviving. intros [[Hin _]|[<-|[]]]; cbn.
    + specialize (Hfresh tm Hin). lia.
    + lia.
  - intros t' h. rewrite emptyCacheTimeout_timeouts, emptyCacheTimeout_next_handle.
    destruct (tier_eqb t' t).
    + intros [= <-]. lia.
    + intros H. specialize (Hrec t' h H). lia.
  - intros t' tm. rewrite emptyCacheTimeout_timers_surviving, emptyCacheTimeout_timeouts.
    rewrite in_app_iff, In_surviving. intros [[Hin Hne]|[<-|[]]].
    + destruct (tier_eqb t' t) eqn:Htt.
      * apply tier_eqb_eq in Htt as ->. split.
        -- intros Hy. exfalso. apply Hne. by apply Htier.
        -- intros [= Hh]. specialize (Hfresh tm Hin). lia.
      * by apply Htier.
    + cbn. destruct (tier_eqb t' t) eqn:Htt; [done|]. split; [discriminate|].
      intros H. specialize (Hrec t' _ H). lia.
Qed.

Lemma live_emptyCacheTimeout_same (d : jsnum) (t : Tier) (st : State) :
  wf st -> live t (emptyCacheTimeout d t st) = [tier_timer d t st].
Proof.
  intros [Hnd Hfresh Hrec Htier]. unfold live.
  rewrite emptyCacheTimeout_timers_surviving, List.filter_app. cbn.
  rewrite tier_eqb_refl.
  rewrite filter_none; [done|].
  intros tm Hin. apply In_surviving in Hin as [Hin Hne].
  destruct (is_tier_timer t tm) eqn:Hy; [|done].
  exfalso. apply Hne. by apply Htier.
Qed.

Lemma live_emptyCacheTimeout_other (d : jsnum) (t t' : Tier) (st : State) :
  wf st -> t' <> t -> live t' (emptyCacheTimeout d t st) = live t' st.
Proof.
  intros [Hnd Hfresh Hrec Htier] Hne. unfold live.
  rewrite emptyCacheTimeout_timers_surviving, List.filter_app. cbn.
  destruct (tier_eqb t' t) eqn:Htt; [by apply tier_eqb_eq in Htt|].
  rewrite app_nil_r. destruct (timeouts t st) as [h|] eqn:Hh; [|done].
  cbn. unfold without_handle. apply filter_filter_absorb.
  intros tm Hin Hq. apply negb_false_iff, Nat.eqb_eq in Hq.
  destruct (is_tier_timer t' tm) eqn:Hy; [|done].
  exfalso. apply Hne. apply (is_tier_timer_unique t' t tm Hy).
  apply Htier; [done|]. by rewrite Hq.
Qed.

(** C7: a run of [emptyCacheTimeout] for a tier leaves exactly the timer it
    arms live for that tier (the one it found is cancelled first) and does not
    touch the live timers of the other tier; hence after any sequence of runs,
    each tier that had a run has exactly one live timer, the one whose handle
    [cachedata.timeouts] holds, and a tier without a run keeps its timers. *)
Theorem one_live_timer_per_tier (rs : list (jsnum * Tier)) (st : State) :
  wf st ->
  (forall d t,
     live t (emptyCacheTimeout d t st) = [tier_timer d t st] /\
     forall t', t' <> t -> live t' (emptyCacheTimeout d t st) = live t' st) /\
  wf (reconfigure rs st) /\
  forall t,
    if reconfigured t rs
    then exists tm, live t (reconfigure rs st) = [tm] /\
                    timeouts t (reconfigure rs st) = Some (handle tm)
    else live t (reconfigure rs st) = live t st.
Proof.
  intros Hwf. split.
  { intros d t. split; [by apply live_emptyCacheTimeout_same|].
    intros t' Hne. by apply live_emptyCacheTimeout_other. }
  revert st Hwf. induction rs as [|[d t0] rs IH]; intros st Hwf.
  { split; [done|]. intros t. reflexivity. }
  pose proof (emptyCacheTimeout_wf d t0 st Hwf) as Hwf'.
  destruct (IH _ Hwf') as [Hwf'' Hlive]. split; [exact Hwf''|].
  intros t. specialize (Hlive t). cbn [reconfigured existsb snd].
  change (existsb _ rs) with (reconfigured t rs).
  change (reconfigure ((d, t0) :: rs) st) with (reconfigure rs (emptyCacheTimeout d t0 st)).
  destruct (reconfigured t rs).
  - by rewrite orb_true_r.
  - rewrite orb_false_r. rewrite Hlive. destruct (tier_eqb t t0) eqn:Htt.
    + apply tier_eqb_eq in Htt as ->.
      rewrite live_emptyCacheTimeout_same in * by done.
      exists (tier_timer d t0 st). split; [done|].
      apply (wf_tier _ Hwf'').
      * assert (In (tier_timer d t0 st) (live t0 (reconfigure rs (emptyCacheTimeout d t0 st))))
          as Hin by (rewrite Hlive; by left).
        unfold live in Hin. by apply List.filter_In in Hin as [Hin _].
      * unfold is_tier_timer. cbn. apply tier_eqb_refl.
    + apply live_emptyCacheTimeout_other; [done|].
      intros ->. by rewrite tier_eqb_refl in Htt.
Qed.

Lemma one_live_timer_per_tier_witness :
  let rs := [(Int 15, short); (Int 45, long); (Int 5, short); (NaN, short)] in
  exists tm, live short (reconfigure rs initial) = [tm] /\
             timeouts short (reconfigure rs initial) = Some (handle tm).
Proof.
  cbn zeta.
  exact (proj2 (proj2 (one_live_timer_per_tier
                         [(Int 15, short); (Int 45, long); (Int 5, short); (NaN, short)]
                         initial wf_initial)) short).
Defined.

(** ** Notification expiry *)

(** C4, as stated, fails: the page notification requested at 0 ms and closed
    at 1000 ms has no record any more, yet its expiry timer, armed at 2 ms
    when the tab query called back, is still live. *)
Lemma expiry_timer_survives_clear :
  let id := "10000000-1000-4000-8000-100000000000" in
  notificationData closed_early !! id = None /\
  pending_expiry id closed_early =
    [ {| handle := 1; armed_at := 2; delay := Int 6000;
         callback := cb_clearNotification id |} ].
Proof. cbn zeta. split; vm_compute; reflexivity. Qed.

(** C4 (amended): when the promise of [sendNotification] resolves (for a
    native notification in the callback that stores the record, for a page
    notification in the callback of the tab query) one timer of 6000 ms that
    runs [clearNotification(id)] is armed; its handle is not kept, so
    clearing, clicking and the host's close event leave the live timers as
    they are; and when the record is gone the timer's callback changes
    nothing. *)
Theorem expiry_timer_armed_and_kept (id : string) (d : Details) (st : State) :
  timers (on_created id d st) = (timers st ++ [expiry_timer id st])%list /\
  is_Some (notificationData (on_created id d st) !! id) /\
  timers (on_page_shown id st) = (timers st ++ [expiry_timer id st])%list /\
  due (expiry_timer id st) = (now st + 6000)%Z /\
  timers (clearNotification id st) = timers st /\
  timers (fst (onClickNotification id st)) = timers st /\
  timers (onClosed id st) = timers st /\
  run_callback (cb_clearNotification id) (onClosed id st) = onClosed id st.
Proof.
  repeat split.
  - cbn. rewrite lookup_insert_eq. eauto.
  - unfold clearNotification.
    destruct (notificationData st !! id) as [m|]; [destruct (type m)|]; reflexivity.
  - unfold onClickNotification, clearNotification.
    destruct (notificationData st !! id) as [m|] eqn:Hm; [|reflexivity].
    destruct (truthy (markreadid m)); cbn; rewrite Hm; by destruct (type m).
  - cbn. apply clearNotification_absent. cbn. apply lookup_delete_eq.
Qed.

(** ** The timer invariant along the event loop *)

Lemma keeps_timers_refl (st : State) : keeps_timers st st.
Proof. by intros Hwf. Qed.

Lemma keeps_timers_trans (st1 st2 st3 : State) :
  keeps_timers st1 st2 -> keeps_timers st2 st3 -> keeps_timers st1 st3.
Proof.
  intros H12 H23 Hwf. destruct (H12 Hwf) as [Hwf2 Ha2].
  destruct (H23 Hwf2) as [Hwf3 Ha3]. split; [done|]. auto.
Qed.

Lemma same_timers_refl (st : State) : same_timers st st.
Proof. by repeat split. Qed.

Lemma same_timers_trans (st1 st2 st3 : State) :
  same_timers st1 st2 -> same_timers st2 st3 -> same_timers st1 st3.
Proof.
  intros (Ht & Hn & Ho) (Ht' & Hn' & Ho'). split; [congruence|]. split; [congruence|].
  intros t. by rewrite Ho', Ho.
Qed.

Lemma same_timers_keeps (st st' : State) : same_timers st st' -> keeps_timers st st'.
Proof.
  intros (Ht & Hn & Ho) [Hnd Hfresh Hrec Htier]. split.
  - constructor; rewrite ?Ht, ?Hn; try done.
    + intros t h. rewrite Ho. apply Hrec.
    + intros t tm. rewrite Ho. apply Htier.
  - intros Ha t. unfold live. rewrite Ht. apply Ha.
Qed.

Lemma same_timers_emit (e : Effect) (st : State) : same_timers st (emit e st).
Proof. by repeat split. Qed.

Lemma same_timers_emit_all (calls : list Effect) (st : State) :
  same_timers st (emit_all calls st).
Proof.
  revert st. induction calls as [|e calls IH]; intros st; [apply same_timers_refl|].
  cbn. eapply same_timers_trans; [apply (same_timers_emit e)|apply IH].
Qed.

Lemma same_timers_clearNotification (id : string) (st : State) :
  same_timers st (clearNotification id st).
Proof.
  unfold clearNotification.
  destruct (notificationData st !! id) as [m|]; [destruct (type m)|]; by repeat split.
Qed.

Lemma same_timers_onClickNotification (id : string) (st : State) :
  same_timers st (fst (onClickNotification id st)).
Proof.
  unfold onClickNotification.
  destruct (notificationData st !! id) as [m|]; [|apply same_timers_refl].
  cbn [fst]. eapply same_timers_trans; [|apply same_timers_clearNotification].
  destruct (truthy (markreadid m)); by repeat split.
Qed.

Lemma same_handle_same_timer (ts : list Timer) (a b : Timer) :
  NoDup (map handle ts) -> In a ts -> In b ts -> handle a = handle b -> a = b.
Proof.
  induction ts as [|tm ts IH]; cbn; intros Hnd Ha Hb Hh; [done|].
  apply NoDup_cons in Hnd as [Hnotin Hnd].
  rewrite list_elem_of_In, in_map_iff in Hnotin.
  destruct Ha as [<-|Ha], Hb as [<-|Hb]; try done.
  - exfalso. apply Hnotin. eauto.
  - exfalso. apply Hnotin. eauto.
  - by apply IH.
Qed.

Lemma wf_without_handle (h : nat) (st : State) :
  wf st -> wf (set_timers (without_handle h (timers st)) (next_handle st) st).
Proof.
  intros [Hnd Hfresh Hrec Htier]. constructor; cbn.
  - by apply NoDup_handles_filter.
  - intros tm Hin. apply In_without_handle in Hin as [Hin _]. by apply Hfresh.
  - intros t h' H. exact (Hrec t h' H).
  - intros t tm Hin. apply In_without_handle in Hin as [Hin _].
    exact (Htier t tm Hin).
Qed.

Lemma live_without_handle (t : Tier) (tm : Timer) (st : State) :
  wf st -> In tm (timers st) -> is_tier_timer t tm = false ->
  live t (set_timers (without_handle (handle tm) (timers st)) (next_handle st) st) = live t st.
Proof.
  intros [Hnd _ _ _] Hin Hnot. unfold live. cbn. unfold without_handle.
  apply filter_filter_absorb. intros tm' Hin' Hq.
  apply negb_false_iff, Nat.eqb_eq in Hq.
  by rewrite (same_handle_same_timer _ _ _ Hnd Hin' Hin Hq).
Qed.

Lemma emptyCacheTimeout_armed_other (d : jsnum) (t : Tier) (st : State) :
  wf st ->
  (forall t', t' <> t -> exists tm, live t' st = [tm]) ->
  armed (emptyCacheTimeout d t st).
Proof.
  intros Hwf Ha t'. destruct (tier_eqb t' t) eqn:Htt.
  - apply tier_eqb_eq in Htt as ->. rewrite live_emptyCacheTimeout_same by done. eauto.
  - assert (t' <> t) as Hne by (intros ->; by rewrite tier_eqb_refl in Htt).
    rewrite live_emptyCacheTimeout_other by done. by apply Ha.
Qed.

Lemma keeps_timers_emptyCacheTimeout (d : jsnum) (t : Tier) (st : State) :
  keeps_timers st (emptyCacheTimeout d t st).
Proof.
  intros Hwf. split; [by apply emptyCacheTimeout_wf|].
  intros Ha. apply emptyCacheTimeout_armed_other; [done|]. intros t' _. apply Ha.
Qed.

Lemma keeps_timers_arm_expiry (id : string) (st : State) :
  keeps_timers st (arm_expiry id st).
Proof.
  intros [Hnd Hfresh Hrec Htier]. split.
  - constructor; cbn.
    + rewrite map_app. cbn. apply NoDup_app. split; [done|]. split; [|apply NoDup_singleton].
      intros h Hin Hnew. apply list_elem_of_In in Hin. apply list_elem_of_In in Hnew.
      apply in_map_iff in Hin as (tm & <- & Hin). destruct Hnew as [Hnew|[]].
      specialize (Hfresh tm Hin). lia.
    + intros tm. rewrite in_app_iff. intros [Hin|[<-|[]]]; cbn.
      * specialize (Hfresh tm Hin). lia.
      * lia.
    + intros t h H. pose proof (Hrec t h H). lia.
    + intros t tm. rewrite in_app_iff. intros [Hin|[<-|[]]].
      * exact (Htier t tm Hin).
      * unfold is_tier_timer. cbn. split; [discriminate|].
        intros H. pose proof (Hrec t _ H). lia.
  - intros Ha t. unfold live. cbn. rewrite List.filter_app. cbn.
    rewrite app_nil_r. apply Ha.
Qed.

Lemma keeps_timers_fire (h : nat) (st : State) : keeps_timers st (fire h st).
Proof.
  unfold fire. destruct (List.find _ (timers st)) as [tm|] eqn:Hfind;
    [|apply keeps_timers_refl].
  apply find_some in Hfind as [Hin Hh]. apply Nat.eqb_eq in Hh. subst h.
  intros Hwf. pose proof (wf_without_handle (handle tm) st Hwf) as Hwf1.
  destruct (callback tm) as [id|d t0] eqn:Hcb; cbn [run_callback].
  - destruct (same_timers_keeps _ _ (same_timers_clearNotification id _) Hwf1) as [Hwf2 Ha2].
    split; [done|]. intros Ha. apply Ha2. intros t.
    rewrite live_without_handle; [apply Ha | done | done |].
    unfold is_tier_timer. by rewrite Hcb.
  - split; [by apply emptyCacheTimeout_wf|]. intros Ha.
    apply emptyCacheTimeout_armed_other; [done|]. intros t' Hne.
    rewrite live_without_handle; [apply Ha | done | done |].
    unfold is_tier_timer. rewrite Hcb.
    destruct (tier_eqb t' t0) eqn:Htt; [by apply tier_eqb_eq in Htt|done].
Qed.

Lemma keeps_timers_initCachetimeout (B : Builtins) (forceRefresh : bool) (st : State) :
  keeps_timers st (fst (initCachetimeout B forceRefresh st)).
Proof.
  unfold initCachetimeout.
  destruct (member (TBsettingsObject st) "tbsettings") as [tbsettings|e];
    [|apply keeps_timers_refl].
  destruct (member tbsettings storageShortLengthKey) as [sv|e]; [|apply keeps_timers_refl].
  assert (forall d s, keeps_timers s (set_currentDurations short d s)) as Hset
    by (intros d s; apply same_timers_keeps; by repeat split).
  destruct (member tbsettings storageLongLengthKey) as [lv|e]; cbn [fst];
    split_ifs;
    repeat first
      [ apply keeps_timers_refl
      | eapply keeps_timers_trans; [|apply keeps_timers_emptyCacheTimeout]
      | eapply keeps_timers_trans; [|apply Hset] ].
Qed.

(** A forced run that completes arms both tiers, whatever was live before. *)
Lemma initCachetimeout_force_armed (B : Builtins) (st st' : State) :
  wf st -> initCachetimeout B true st = (st', None) -> armed st'.
Proof.
  intros Hwf. unfold initCachetimeout.
  destruct (member (TBsettingsObject st) "tbsettings") as [tbsettings|e]; [|discriminate].
  destruct (member tbsettings storageShortLengthKey) as [sv|e]; [|discriminate].
  destruct (member tbsettings storageLongLengthKey) as [lv|e]; [|discriminate].
  rewrite !orb_true_r. intros [= <-].
  set (d := storage_length B 15 sv). set (l := storage_length B 45 lv).
  assert (forall s, wf s -> wf (set_currentDurations short d s)) as Hset
    by (intros s Hs; apply (same_timers_keeps s); [by repeat split|done]).
  set (st1 := emptyCacheTimeout d short (set_currentDurations short d st)).
  assert (wf st1) as Hwf1 by (apply emptyCacheTimeout_wf; auto).
  apply emptyCacheTimeout_armed_other; [auto|].
  intros t' Hne. destruct t'; [|done].
  change (live short (set_currentDurations short d st1)) with (live short st1).
  subst st1. rewrite live_emptyCacheTimeout_same by auto. eauto.
Qed.

Lemma fst_settle (r : State * option JSError) (v : JSValue) :
  fst (settle r v) = fst r.
Proof. by destruct r as [st [e|]]. Qed.

Lemma same_timers_tb_request (B : Builtins) (fuel : nat) (w : World) (request : Request)
    (st : State) :
  same_timers st (fst (tb_request B fuel w request st)).
Proof.
  unfold tb_request.
  destruct (req_endpoint request) as [endpoint|]; [|apply same_timers_refl].
  destruct (negb _); [apply same_timers_refl|].
  destruct (truthy (req_oauth request)); [|by repeat split].
  destruct (getOAuthTokens B fuel w 0 1) as [[tokens|e| |] calls]; cbn [fst];
    first [ apply same_timers_emit_all
          | eapply same_timers_trans; [apply same_timers_emit_all|apply same_timers_emit] ].
Qed.

Lemma same_timers_tb_cache (B : Builtins) (request : Request) (st : State) :
  same_timers st (fst (tb_cache B request st)).
Proof.
  unfold tb_cache.
  destruct (is_string (req_method request) "get").
  { destruct (localStorage st !! req_storageKey request); [|apply same_timers_refl].
    destruct (JSON_parse B _); apply same_timers_refl. }
  destruct (is_string (req_method request) "set"); [by repeat split|].
  destruct (is_string (req_method request) "clear"); by repeat split.
Qed.

Lemma same_timers_send_notification (w : World) (request : Request) (st : State) :
  same_timers st
    (if truthy (req_native request)
     then sendNativeNotification (has_getPermissionLevel w) (uuid w) (req_details request) st
     else sendPageNotification (uuid w) (req_details request) st).
Proof.
  unfold sendNativeNotification, sendPageNotification, send.
  destruct (truthy _); [destruct (has_getPermissionLevel w)|]; by repeat split.
Qed.

Lemma keeps_timers_onMessage (B : Builtins) (messageHandlers : gmap string Handler)
    (fuel : nat) (w : World) (request : Request) (sender : Sender) (st : State) :
  handlers_keep_timers messageHandlers ->
  keeps_timers st (fst (onMessage B messageHandlers fuel w request sender st)).
Proof.
  intros Hh. unfold onMessage, handlers_keep_timers, Handler in *.
  destruct (messageHandlers !! req_action request) as [handler|] eqn:Hget.
  { by eapply Hh. }
  cbn zeta.
  repeat match goal with
    | |- context [if String.eqb ?a ?b then _ else _] => destruct (String.eqb a b)
    end; cbn [fst]; rewrite ?fst_settle.
  - apply same_timers_keeps, same_timers_emit.
  - destruct (is_string _ _); rewrite ?fst_settle.
    + eapply keeps_timers_trans; [|apply keeps_timers_initCachetimeout].
      apply same_timers_keeps. by repeat split.
    + apply same_timers_keeps, same_timers_emit.
  - apply keeps_timers_initCachetimeout.
  - apply same_timers_keeps, same_timers_send_notification.
  - apply same_timers_keeps, same_timers_onClickNotification.
  - apply same_timers_keeps, same_timers_clearNotification.
  - apply same_timers_keeps, same_timers_tb_request.
  - apply same_timers_keeps, same_timers_tb_cache.
  - apply keeps_timers_refl.
Qed.

Lemma keeps_timers_turn (B : Builtins) (messageHandlers : gmap string Handler)
    (t : Z) (ev : Event) (st : State) :
  handlers_keep_timers messageHandlers ->
  keeps_timers st (turn B messageHandlers t ev st).
Proof.
  intros Hh. unfold turn.
  eapply keeps_timers_trans; [apply (same_timers_keeps st (set_now t st)); by repeat split|].
  destruct ev as [request sender w fuel|h|permission uuid d|id d|id|id|id|sObject].
  - by apply keeps_timers_onMessage.
  - apply keeps_timers_fire.
  - apply same_timers_keeps. unfold on_permission, send.
    destruct (String.eqb _ _); by repeat split.
  - unfold on_created. eapply keeps_timers_trans; [|apply keeps_timers_arm_expiry].
    apply same_timers_keeps. by repeat split.
  - apply keeps_timers_arm_expiry.
  - apply same_timers_keeps, same_timers_onClickNotification.
  - apply same_timers_keeps. by repeat split.
  - unfold on_storage_loaded.
    eapply keeps_timers_trans; [|apply keeps_timers_initCachetimeout].
    apply same_timers_keeps. by repeat split.
Qed.

Lemma handlers_keep_timers_empty : handlers_keep_timers ∅.
Proof. intros action handler H. by rewrite lookup_empty in H. Qed.

Lemma handlers_keep_timers_notifications :
  handlers_keep_timers (register_notification_handlers ∅).
Proof.
  intros action handler H w request sender st.
  unfold register_notification_handlers, messageHandlers_set, Handler in *.
  repeat (apply lookup_insert_Some in H as [[_ <-]|[_ H]]).
  - apply same_timers_keeps, same_timers_clearNotification.
  - unfold handle_tb_page_notification_click. rewrite fst_settle.
    apply same_timers_keeps, same_timers_onClickNotification.
  - apply same_timers_keeps, same_timers_send_notification.
  - by rewrite lookup_empty in H.
Qed.

(** Every state the event loop reaches satisfies the timer invariant, and
    once each tier has exactly one live timer it stays so at every turn. *)
Lemma run_keeps_timers (B : Builtins) (messageHandlers : gmap string Handler)
    (evs : list (Z * Event)) (st : State) :
  handlers_keep_timers messageHandlers ->
  keeps_timers st (run B messageHandlers evs st).
Proof.
  intros Hh. revert st. induction evs as [|[t ev] evs IH]; intros st;
    [apply keeps_timers_refl|].
  cbn. eapply keeps_timers_trans; [by apply keeps_timers_turn|apply IH].
Qed.

Lemma reachable_wf (B : Builtins) (evs : list (Z * Event)) :
  wf (run B ∅ evs initial).
Proof.
  apply (run_keeps_timers B ∅ evs initial handlers_keep_timers_empty), wf_initial.
Qed.

(** * Further properties of the code *)

(** ** Notification ids *)

Lemma land_ones_bound (r : Z) (k : Z) :
  (0 <= k)%Z -> (0 <= Z.land r (Z.ones k) < 2 ^ k)%Z.
Proof.
  intros Hk. rewrite Z.land_ones by lia. apply Z.mod_pos_bound. lia.
Qed.

Lemma uuid_digit_0_hex (r : Z) : is_hex (hex_digit (uuid_digit 0 r)) = true.
Proof.
  unfold uuid_digit. change (Z.shiftr 15 (0 / 4)) with (Z.ones 4).
  pose proof (land_ones_bound r 4 ltac:(lia)) as H. rewrite Z.lxor_0_l.
  assert (exists n, (n < 16)%nat /\ Z.land r (Z.ones 4) = Z.of_nat n) as (n & Hn & ->)
    by (exists (Z.to_nat (Z.land r (Z.ones 4))); lia).
  do 16 (destruct n as [|n]; [reflexivity|]). lia.
Qed.

Lemma uuid_digit_1_hex (r : Z) : is_hex (hex_digit (uuid_digit 1 r)) = true.
Proof.
  unfold uuid_digit. change (Z.shiftr 15 (1 / 4)) with (Z.ones 4).
  pose proof (land_ones_bound r 4 ltac:(lia)) as H.
  assert (exists n, (n < 16)%nat /\ Z.land r (Z.ones 4) = Z.of_nat n) as (n & Hn & ->)
    by (exists (Z.to_nat (Z.land r (Z.ones 4))); lia).
  do 16 (destruct n as [|n]; [reflexivity|]). lia.
Qed.

Lemma uuid_digit_8_variant (r : Z) : is_variant (hex_digit (uuid_digit 8 r)) = true.
Proof.
  unfold uuid_digit. change (Z.shiftr 15 (8 / 4)) with (Z.ones 2).
  pose proof (land_ones_bound r 2 ltac:(lia)) as H.
  assert (exists n, (n < 4)%nat /\ Z.land r (Z.ones 2) = Z.of_nat n) as (n & Hn & ->)
    by (exists (Z.to_nat (Z.land r (Z.ones 2))); lia).
  do 4 (destruct n as [|n]; [reflexivity|]). lia.
Qed.

(** X1: whatever bytes the random source yields, [uuidv4] returns 36
    characters in the layout of a version 4 UUID: hex digits in groups of
    8, 4, 4, 4 and 12 separated by hyphens, the third group starting with 4
    and the fourth with 8, 9, a or b. *)
Theorem uuidv4_is_version_4 (random : nat -> Z) :
  String.length (uuidv4 random) = 36 /\
  matches_pattern uuid_v4_pattern (uuidv4 random) = true.
Proof.
  split; [reflexivity|].
  unfold uuidv4, uuid_template, uuid_v4_pattern.
  cbn -[is_hex is_variant hex_digit uuid_digit].
  by rewrite !uuid_digit_0_hex, !uuid_digit_1_hex, uuid_digit_8_variant.
Qed.

(** ** The token cookie's value *)

(** X2: on a value without line terminators, the cleaned cookie value is made
    of characters of the base64 alphabet only and is a prefix of the value. *)
Theorem strip_invalid_base64 (s : string) :
  has_line_terminator s = false ->
  all_base64 (strip_invalid s) = true /\ String.prefix (strip_invalid s) s = true.
Proof.
  induction s as [|c rest IH]; cbn; [done|].
  intros H. apply orb_false_iff in H as [_ Hrest]. rewrite Hrest, orb_false_r.
  destruct (IH Hrest) as [Hall Hpre].
  destruct (is_base64_char c) eqn:Hc; cbn.
  - rewrite Hc, Hall. split; [done|]. by destruct (ascii_dec c c).
  - done.
Qed.

Lemma strip_invalid_base64_witness :
  all_base64 (strip_invalid "eyJhIjoxfQ==;path") = true /\
  String.prefix (strip_invalid "eyJhIjoxfQ==;path") "eyJhIjoxfQ==;path" = true.
Proof. apply (strip_invalid_base64 "eyJhIjoxfQ==;path"). reflexivity. Defined.

(** X3: a value made of base64 characters only is left as it is. *)
Theorem strip_invalid_valid (s : string) :
  all_base64 s = true -> strip_invalid s = s.
Proof.
  induction s as [|c rest IH]; cbn; [done|].
  intros H. apply andb_true_iff in H as [Hc Hrest]. rewrite Hc. cbn. by rewrite IH.
Qed.

Lemma strip_invalid_valid_witness : strip_invalid "eyJhIjoxfQ" = "eyJhIjoxfQ".
Proof. apply (strip_invalid_valid "eyJhIjoxfQ"). reflexivity. Defined.

(** ** Response headers *)

Lemma prefix_drop_chars (p s : string) :
  String.prefix p s = true -> p +:+ drop_chars (String.length p) s = s.
Proof.
  revert s. induction p as [|c p IH]; intros s; [done|].
  destruct s as [|c' s]; cbn; [done|]. destruct (ascii_dec c c') as [->|]; [|done].
  intros H. change (String c' (p +:+ drop_chars (String.length p) s) = String c' s).
  f_equal. by apply IH.
Qed.

Lemma prefix_length_le (p s : string) :
  String.prefix p s = true -> (String.length p <= String.length s)%nat.
Proof.
  revert s. induction p as [|c p IH]; intros s; cbn; [lia|].
  destruct s as [|c' s]; cbn; [done|]. destruct (ascii_dec c c'); [|done].
  intros H. specialize (IH s H). lia.
Qed.

Lemma split_go_nonempty (sep : string) (skip : nat) (cur s : string) :
  split_go sep skip cur s <> [].
Proof.
  revert skip cur. induction s as [|c rest IH]; intros skip cur; cbn [split_go]; [done|].
  destruct skip; [|apply IH].
  destruct (String.prefix sep (String c rest)); [done|apply IH].
Qed.

Lemma append_assoc (a b c : string) : (a +:+ b) +:+ c = a +:+ (b +:+ c).
Proof.
  induction a as [|x a IH]; [done|].
  change (String x ((a +:+ b) +:+ c) = String x (a +:+ (b +:+ c))). by f_equal.
Qed.

Lemma append_empty_r (a : string) : a +:+ EmptyString = a.
Proof.
  induction a as [|x a IH]; [done|].
  change (String x (a +:+ EmptyString) = String x a). by f_equal.
Qed.

Lemma join_split_go (sep : string) (s : string) :
  sep <> EmptyString ->
  forall skip cur, (skip <= String.length s)%nat ->
    join sep (split_go sep skip cur s) = cur +:+ drop_chars skip s.
Proof.
  intros Hsep. induction s as [|c rest IH]; intros skip cur Hskip.
  - cbn in *. assert (skip = 0%nat) as -> by lia. cbn. by rewrite append_empty_r.
  - destruct skip as [|skip].
    + cbn [split_go drop_chars].
      destruct (String.prefix sep (String c rest)) eqn:Hpre.
      * destruct sep as [|c0 sep']; [done|].
        pose proof (prefix_length_le _ _ Hpre) as Hlen.
        pose proof (prefix_drop_chars _ _ Hpre) as Hdrop.
        cbn [String.length] in *. replace (S (String.length sep') - 1)%nat
          with (String.length sep') by lia.
        cbn [drop_chars] in Hdrop.
        pose proof (split_go_nonempty (String c0 sep') (String.length sep') EmptyString rest)
          as Hne.
        destruct (split_go (String c0 sep') (String.length sep') EmptyString rest)
          as [|piece pieces] eqn:Hsplit; [done|].
        change (join (String c0 sep') (cur :: piece :: pieces))
          with (cur +:+ String c0 sep' +:+ join (String c0 sep') (piece :: pieces)).
        rewrite <- Hsplit, IH by lia.
        change (EmptyString +:+ drop_chars (String.length sep') rest)
          with (drop_chars (String.length sep') rest).
        by rewrite Hdrop.
      * rewrite IH by lia. cbn [drop_chars]. by rewrite append_assoc.
    + cbn [split_go drop_chars]. apply IH. cbn in Hskip. lia.
Qed.

(** X4: splitting on a non-empty separator loses nothing: joining the pieces
    with the separator gives the string back. *)
Theorem join_split (sep s : string) :
  sep <> EmptyString -> join sep (split sep s) = s.
Proof.
  intros Hsep. unfold split. rewrite join_split_go by (done || lia). reflexivity.
Qed.

Lemma join_split_witness :
  join ": " (split ": " "cache-control: max-age: 0") = "cache-control: max-age: 0".
Proof. apply (join_split ": " "cache-control: max-age: 0"). discriminate. Defined.

Lemma assign_keys (k : string) (v : JSValue) (o : list (string * JSValue)) :
  map fst (assign k v o) =
    if bool_decide (k ∈ map fst o) then map fst o else (map fst o ++ [k])%list.
Proof.
  induction o as [|[k' v'] o IH]; cbn; [done|].
  destruct (String.eqb_spec k k') as [->|Hne]; cbn.
  - rewrite bool_decide_eq_true_2; [done|]. apply elem_of_cons. by left.
  - rewrite IH. destruct (bool_decide (k ∈ map fst o)) eqn:Hin.
    + apply bool_decide_eq_true in Hin.
      rewrite bool_decide_eq_true_2; [done|]. apply elem_of_cons. by right.
    + apply bool_decide_eq_false in Hin.
      rewrite bool_decide_eq_false_2; [done|]. by apply not_elem_of_cons.
Qed.

Lemma assign_NoDup (k : string) (v : JSValue) (o : list (string * JSValue)) :
  NoDup (map fst o) -> NoDup (map fst (assign k v o)).
Proof.
  intros Hnd. rewrite assign_keys. destruct (bool_decide _) eqn:Hin; [done|].
  apply bool_decide_eq_false in Hin. apply NoDup_app. split; [done|].
  split; [|apply NoDup_singleton]. intros x Hx Hk. apply list_elem_of_singleton in Hk.
  by subst.
Qed.

Lemma assign_values (k : string) (v : JSValue) (o : list (string * JSValue)) :
  header_value_ok v = true ->
  Forall (fun kv => header_value_ok (snd kv) = true) o ->
  Forall (fun kv => header_value_ok (snd kv) = true) (assign k v o).
Proof.
  intros Hv. induction o as [|[k' v'] o IH]; cbn; intros Ho.
  - by constructor.
  - apply Forall_cons in Ho as [Hv' Ho]. destruct (String.eqb k k'); constructor; auto.
Qed.

Lemma decimal_nonneg (s : string) (acc : Z) :
  (0 <= acc)%Z -> all_digits s = true -> (0 <= decimal acc s)%Z.
Proof.
  revert acc. induction s as [|c rest IH]; intros acc Hacc; cbn; [done|].
  intros H. apply andb_true_iff in H as [Hc Hrest]. apply IH; [|done].
  unfold is_digit in Hc. apply andb_true_iff in Hc as [Hlo _].
  apply Nat.leb_le in Hlo. lia.
Qed.

Lemma fold_left_invariant {A E : Type} (P : A -> Prop) (f : A -> E -> A)
    (l : list E) (a : A) :
  P a -> (forall a' e, P a' -> P (f a' e)) -> P (fold_left f l a).
Proof.
  intros Ha Hf. revert a Ha. induction l as [|e l IH]; intros a Ha; cbn; [done|].
  apply IH. by apply Hf.
Qed.

(** X5: the header object has each name once, and no value in it is a string
    of digits: such values have become non-negative numbers, the other values
    are strings, or [undefined] for a line without a colon and space. *)
Theorem makeHeaderObject_shape (headerString : string) :
  NoDup (map fst (makeHeaderObject headerString)) /\
  Forall (fun kv => header_value_ok (snd kv) = true) (makeHeaderObject headerString).
Proof.
  unfold makeHeaderObject.
  apply (fold_left_invariant
           (fun o => NoDup (map fst o) /\
                     Forall (fun kv => header_value_ok (snd kv) = true) o)).
  - split; constructor.
  - intros o item [Hnd Hok]. destruct (String.eqb item EmptyString); [done|].
    split; [by apply assign_NoDup|]. apply assign_values; [|done].
    destruct (nth_error (split ": " item) 1) as [v|]; [|done].
    destruct (digits_only v) eqn:Hd; cbn; [|by rewrite Hd].
    apply Z.leb_le. apply decimal_nonneg; [lia|].
    unfold digits_only in Hd. by apply andb_true_iff in Hd as [_ Hd].
Qed.

(** ** Token retrieval and proxied requests *)

Lemma getOAuthTokens_usable (B : Builtins) (fuel : nat) (w : World) (k : nat) (tries : Z)
    (tokens : JSValue) :
  usable_at B w k tokens ->
  getOAuthTokens B (S fuel) w k tries = (resolves tokens, [cookies_get_token]).
Proof.
  intros (c & text & Hc & Hexp & Hatob & Hparse).
  cbn [getOAuthTokens]. rewrite Hc, Hexp. cbn. by rewrite Hatob, Hparse.
Qed.

(** X6: when the first [n] reads of the cookie find it missing or expired and
    each is followed by a GET of the modmail page that succeeds, and read
    [n] finds a cookie that has not expired and decodes to [tokens], then
    [getOAuthTokens()] resolves with [tokens] after [n + 1] reads and [n]
    GETs, however large [n] is. With [n = 0] there is no GET. *)
Theorem getOAuthTokens_resolves_at_first_usable (B : Builtins) (w : World) (n k fuel : nat)
    (tokens : JSValue) :
  (forall i, (i < n)%nat ->
     unusable_at w (k + i) = true /\ modmail_done w (k + i) = true) ->
  usable_at B w (k + n) tokens ->
  (n < fuel)%nat ->
  getOAuthTokens B fuel w k 1 =
    (resolves tokens,
     (concat (repeat [cookies_get_token; get_modmail] n) ++ [cookies_get_token])%list) /\
  attempts (concat (repeat [cookies_get_token; get_modmail] n) ++ [cookies_get_token]) = S n.
Proof.
  intros Hbad Hgood Hfuel. split.
  - revert k fuel Hbad Hgood Hfuel. induction n as [|n IH]; intros k fuel Hbad Hgood Hfuel.
    + destruct fuel as [|fuel]; [lia|]. rewrite Nat.add_0_r in Hgood.
      by apply getOAuthTokens_usable.
    + destruct fuel as [|fuel]; [lia|].
      destruct (Hbad 0%nat ltac:(lia)) as [Hu Hg]. rewrite Nat.add_0_r in Hu, Hg.
      cbn [getOAuthTokens]. unfold unusable_at in Hu.
      rewrite (IH (S k) fuel).
      * destruct (cookies_get w k) as [c|]; cbn; rewrite ?Hu; cbn; by rewrite Hg.
      * intros i Hi. replace (S k + i)%nat with (k + S i)%nat by lia. apply Hbad. lia.
      * by replace (S k + n)%nat with (k + S n)%nat by lia.
      * lia.
  - unfold attempts. rewrite List.filter_app, length_app. cbn.
    pose proof (attempts_logged_out n) as Hn. unfold attempts in Hn. rewrite Hn. lia.
Qed.

Lemma getOAuthTokens_resolves_at_first_usable_witness :
  getOAuthTokens token_builtins 10 late_cookie 0 1 =
    (resolves (JObj []),
     (concat (repeat [cookies_get_token; get_modmail] 5) ++ [cookies_get_token])%list).
Proof.
  apply (getOAuthTokens_resolves_at_first_usable token_builtins late_cookie 5 0 10 (JObj [])).
  - intros i Hi. do 5 (destruct i as [|i]; [split; reflexivity|]). lia.
  - eexists _, _. repeat split; reflexivity.
  - lia.
Defined.



Lemma same_page_refl (st : State) : same_page st st.
Proof. repeat split. Qed.

Lemma same_page_emit (e : Effect) (st : State) : same_page st (emit e st).
Proof. repeat split. Qed.

Lemma same_page_trans (st1 st2 st3 : State) :
  same_page st1 st2 -> same_page st2 st3 -> same_page st1 st3.
Proof.
  intros (Hn & Hd & Hs & Hl & Hc & Ht) (Hn' & Hd' & Hs' & Hl' & Hc' & Ht').
  split; [congruence|]. split; [congruence|]. split; [congruence|]. split; [congruence|].
  split; [intros t; by rewrite Hc', Hc|]. by eapply same_timers_trans.
Qed.

Lemma same_page_emit_all (calls : list Effect) (st : State) :
  same_page st (emit_all calls st) /\
  effects (emit_all calls st) = (effects st ++ calls)%list.
Proof.
  revert st. induction calls as [|e calls IH]; intros st.
  - cbn. split; [apply same_page_refl|]. by rewrite app_nil_r.
  - change (emit_all (e :: calls) st) with (emit_all calls (emit e st)).
    destruct (IH (emit e st)) as [Hs He]. split.
    + eapply same_page_trans; [apply (same_page_emit e)|exact Hs].
    + rewrite He. cbn. by rewrite <- app_assoc.
Qed.

(** X8: handling a [tb-request] changes nothing of the page but the log of
    host calls; without [oauth] the calls added are at most the one [$.ajax]:
    the token cookie is not read and the modmail page is not fetched. *)
Theorem tb_request_only_calls_host (B : Builtins) (fuel : nat) (w : World)
    (request : Request) (st : State) :
  same_page st (fst (tb_request B fuel w request st)) /\
  (truthy (req_oauth request) = false ->
   exists calls, effects (fst (tb_request B fuel w request st)) = (effects st ++ calls)%list /\
                 (length calls <= 1)%nat /\ attempts calls = 0%nat /\
                 ~ In get_modmail calls).
Proof.
  unfold tb_request. destruct (req_endpoint request) as [endpoint|].
  2:{ split; [apply same_page_refl|]. intros _. exists []. rewrite app_nil_r.
      repeat split; cbn; auto. }
  destruct (negb (startsWith "/" endpoint)).
  { split; [apply same_page_refl|]. intros _. exists []. rewrite app_nil_r.
    repeat split; cbn; auto. }
  destruct (truthy (req_oauth request)).
  - split; [|discriminate].
    destruct (getOAuthTokens B fuel w 0 1) as [[tokens|e| |] calls]; cbn [fst];
      first [ apply (proj1 (same_page_emit_all calls st))
            | eapply same_page_trans;
              [apply (proj1 (same_page_emit_all calls st))|apply same_page_emit] ].
  - split; [apply same_page_emit|]. intros _. eexists [_]. cbn.
    repeat split; [lia|]. intros [H|[]]. discriminate H.
Qed.

Lemma tb_request_only_calls_host_witness :
  exists calls,
    effects (fst (tb_request sample_builtins 0 late_cookie plain_request native_shown)) =
      (effects native_shown ++ calls)%list /\
    (length calls <= 1)%nat /\ attempts calls = 0%nat /\ ~ In get_modmail calls.
Proof.
  apply (tb_request_only_calls_host sample_builtins 0 late_cookie plain_request native_shown).
  reflexivity.
Defined.

(** ** The cache messages *)

(** What a [get] answers when the stored string parses to [v]. *)
Lemma tb_cache_get_parsed (B : Builtins) (request : Request) (st : State)
    (storageString : string) (v : JSValue) :
  req_method request = JStr "get" ->
  localStorage st !! req_storageKey request = Some storageString ->
  JSON_parse B storageString = inl v ->
  tb_cache B request st =
    (st, resolves (cache_response
                     (if is_null v && negb (is_null (req_inputValue request))
                      then req_inputValue request else v) None)).
Proof.
  intros Hm Hs Hp. unfold tb_cache. rewrite Hm. cbn. by rewrite Hs, Hp.
Qed.



(** X10: a [get] never changes the page and always answers with a value:
    the promise resolves with [{value, errorThrown?}], and the value is
    [null] only if the default of the request is [null]. *)
Theorem tb_cache_get_answer (B : Builtins) (request : Request) (st : State) :
  req_method request = JStr "get" ->
  exists value errorThrown,
    tb_cache B request st = (st, resolves (cache_response value errorThrown)) /\
    (is_null value = true -> is_null (req_inputValue request) = true).
Proof.
  intros Hm. unfold tb_cache. rewrite Hm. cbn.
  destruct (localStorage st !! req_storageKey request) as [storageString|].
  - destruct (JSON_parse B storageString) as [v|m].
    + eexists _, _. split; [reflexivity|].
      destruct (is_null v) eqn:Hv; cbn; [|congruence].
      destruct (is_null (req_inputValue request)) eqn:Hi; cbn; congruence.
    + eexists _, _. split; [reflexivity|].
      destruct (is_null (req_inputValue request)) eqn:Hi; cbn; congruence.
  - eexists _, _. split; [reflexivity|]. done.
Qed.

Lemma tb_cache_get_answer_witness :
  exists value errorThrown,
    tb_cache sample_builtins cache_get_request corrupted_store =
      (corrupted_store, resolves (cache_response value errorThrown)) /\
    (is_null value = true -> is_null (req_inputValue cache_get_request) = true).
Proof.
  apply (tb_cache_get_answer sample_builtins cache_get_request corrupted_store).
  reflexivity.
Defined.

(** X11: the stored text [null] is never handed out in place of a default:
    when the stored string parses to [null], a [get] answers with the
    request's default and reports no error. *)
Theorem tb_cache_get_stored_null (B : Builtins) (request : Request) (st : State)
    (storageString : string) :
  req_method request = JStr "get" ->
  localStorage st !! req_storageKey request = Some storageString ->
  JSON_parse B storageString = inl JNull ->
  tb_cache B request st =
    (st, resolves (cache_response (req_inputValue request) None)).
Proof.
  intros Hm Hs Hp. rewrite (tb_cache_get_parsed B request st storageString JNull) by done.
  cbn. by destruct (req_inputValue request).
Qed.

Lemma tb_cache_get_stored_null_witness :
  tb_cache sample_builtins (cache_request "get" "TBCache.Utils.noteCache" (JObj []))
    (set_localStorage (<["TBCache.Utils.noteCache" := "null"]> ∅) initial) =
    (set_localStorage (<["TBCache.Utils.noteCache" := "null"]> ∅) initial,
     resolves (cache_response (JObj []) None)).
Proof.
  apply (tb_cache_get_stored_null sample_builtins
           (cache_request "get" "TBCache.Utils.noteCache" (JObj []))
           (set_localStorage (<["TBCache.Utils.noteCache" := "null"]> ∅) initial) "null");
    reflexivity.
Defined.




(** ** The cache tiers *)

Lemma localStorage_emptyCacheTimeout (d : jsnum) (t : Tier) (st : State) :
  localStorage (emptyCacheTimeout d t st) = clear_tier t (localStorage st).
Proof.
  unfold emptyCacheTimeout, clearTimeout. destruct (timeouts t st); by destruct t.
Qed.

Lemma clear_tier_lookup (t : Tier) (s : gmap string string) (key : string) :
  clear_tier t s !! key =
    match tier_sentinel t key with
    | Some v => Some v
    | None => s !! key
    end.
Proof.
  unfold clear_tier, tier_sentinel. destruct t;
    repeat match goal with
      | |- context [String.eqb key ?k] => destruct (String.eqb_spec key k) as [->|?]
      end;
    rewrite ?lookup_insert_eq; try reflexivity;
    repeat (rewrite lookup_insert_ne by congruence); try reflexivity;
    apply lookup_insert_eq.
Qed.

(** X14: a run of [emptyCacheTimeout] resets exactly the keys of its tier:
    each of them holds the text of an empty object or of an empty array
    afterwards (never [null]), every other key of the store keeps what it
    had, and no key belongs to both tiers. *)
Theorem emptyCacheTimeout_resets_tier_keys (d : jsnum) (t : Tier) (st : State)
    (key : string) :
  localStorage (emptyCacheTimeout d t st) !! key =
    match tier_sentinel t key with
    | Some v => Some v
    | None => localStorage st !! key
    end /\
  (forall v, tier_sentinel t key = Some v -> v = "{}" \/ v = "[]") /\
  (is_Some (tier_sentinel short key) -> tier_sentinel long key = None).
Proof.
  split; [|split].
  - rewrite localStorage_emptyCacheTimeout. apply clear_tier_lookup.
  - intros v. unfold tier_sentinel. destruct t; split_ifs; intros [= <-]; auto.
  - unfold tier_sentinel.
    repeat match goal with
      | |- context [String.eqb key ?k] => destruct (String.eqb_spec key k) as [->|?]
      end; cbn; try done; intros [v Hv]; discriminate.
Qed.

Lemma emptyCacheTimeout_resets_tier_keys_witness :
  tier_sentinel long "TBCache.Utils.noteCache" = None.
Proof.
  apply (emptyCacheTimeout_resets_tier_keys (Int 15) short initial "TBCache.Utils.noteCache").
  eexists. reflexivity.
Defined.

Lemma wf_set_currentDurations (t : Tier) (d : jsnum) (st : State) :
  wf st -> wf (set_currentDurations t d st).
Proof.
  intros Hwf. apply (same_timers_keeps st); [by repeat split|done].
Qed.

Lemma wf_set_TBsettingsObject (v : JSValue) (st : State) :
  wf st -> wf (set_TBsettingsObject v st).
Proof.
  intros Hwf. apply (same_timers_keeps st); [by repeat split|done].
Qed.

Lemma wf_native_shown : wf native_shown.
Proof.
  unfold native_shown, on_created.
  apply keeps_timers_arm_expiry, (same_timers_keeps initial); [by repeat split|].
  apply wf_initial.
Qed.

Lemma wf_started : wf started.
Proof.
  unfold started, on_storage_loaded.
  apply keeps_timers_initCachetimeout, wf_set_TBsettingsObject, wf_initial.
Qed.

(** X15: a forced [initCachetimeout] that finds its settings leaves each
    tier with exactly one live timer, armed now, whose delay is the tier's
    length in minutes times 60000: the stored length, [parseInt] of it when
    it is not a number, or 15 (short) and 45 (long) when it is [undefined]. *)
Theorem initCachetimeout_forced (B : Builtins) (st : State) (tbsettings sv lv : JSValue) :
  wf st ->
  member (TBsettingsObject st) "tbsettings" = inl tbsettings ->
  member tbsettings storageShortLengthKey = inl sv ->
  member tbsettings storageLongLengthKey = inl lv ->
  let st' := fst (initCachetimeout B true st) in
  snd (initCachetimeout B true st) = None /\
  (exists tm, live short st' = [tm] /\ armed_at tm = now st /\
              delay tm = minutes_ms (storage_length B 15 sv)) /\
  (exists tm, live long st' = [tm] /\ armed_at tm = now st /\
              delay tm = minutes_ms (storage_length B 45 lv)) /\
  storage_length B 15 JUndefined = Int 15 /\
  storage_length B 45 JUndefined = Int 45.
Proof.
  intros Hwf Ht Hs Hl. cbn zeta. unfold initCachetimeout. rewrite Ht, Hs, Hl.
  rewrite !orb_true_r. cbn [fst snd].
  set (d := storage_length B 15 sv). set (l := storage_length B 45 lv).
  set (st0 := set_currentDurations short d st).
  assert (wf st0) as Hwf0 by by apply wf_set_currentDurations.
  set (st1 := emptyCacheTimeout d short st0).
  assert (wf st1) as Hwf1 by by apply emptyCacheTimeout_wf.
  set (st2 := set_currentDurations short d st1).
  assert (wf st2) as Hwf2 by by apply wf_set_currentDurations.
  split; [done|]. split; [|split; [|done]].
  - exists (tier_timer d short st0). split; [|done].
    rewrite live_emptyCacheTimeout_other by done.
    change (live short st2) with (live short st1). subst st1.
    by rewrite live_emptyCacheTimeout_same.
  - exists (tier_timer l long st2). split; [by rewrite live_emptyCacheTimeout_same|].
    split; [|done]. subst st2 st1. unfold tier_timer, emptyCacheTimeout, clearTimeout. cbn.
    by destruct (timeouts_short st).
Qed.

Lemma initCachetimeout_forced_witness :
  exists tm, live short (fst (initCachetimeout sample_builtins true
                                (set_TBsettingsObject custom_settings native_shown))) = [tm] /\
             armed_at tm = 0%Z /\ delay tm = Int 300000.
Proof.
  apply (initCachetimeout_forced sample_builtins
           (set_TBsettingsObject custom_settings native_shown)
           (JObj [("Toolbox.Utils.shortLength", JStr "5");
                  ("Toolbox.Utils.longLength", JNum (Int 60))])
           (JStr "5") (JNum (Int 60))).
  - apply wf_set_TBsettingsObject, wf_native_shown.
  - reflexivity.
  - reflexivity.
  - reflexivity.
Defined.

(** X16: a settings update that finds, for the short tier, the length that
    is recorded as in effect leaves that tier alone: its timer, the handle
    kept for it and every stored key outside the long tier are as before. *)
Theorem initCachetimeout_short_unchanged (B : Builtins) (st : State)
    (tbsettings sv : JSValue) (d : Z) :
  wf st ->
  member (TBsettingsObject st) "tbsettings" = inl tbsettings ->
  member tbsettings storageShortLengthKey = inl sv ->
  storage_length B 15 sv = Int d ->
  currentDurations short st = Int d ->
  let st' := fst (initCachetimeout B false st) in
  live short st' = live short st /\
  timeouts short st' = timeouts short st /\
  forall key, tier_sentinel long key = None ->
    localStorage st' !! key = localStorage st !! key.
Proof.
  intros Hwf Ht Hs Hd Hc. cbn zeta. unfold initCachetimeout. rewrite Ht, Hs, Hd, Hc.
  cbn [num_strict_neq]. rewrite Z.eqb_refl. cbn [negb orb].
  destruct (member tbsettings storageLongLengthKey) as [lv|e]; cbn [fst]; [|done].
  rewrite orb_false_r. destruct (num_strict_neq _ _); [|done].
  assert (wf (set_currentDurations short (Int d) st)) as Hwf0
    by by apply wf_set_currentDurations.
  split; [|split].
  - by rewrite live_emptyCacheTimeout_other.
  - by rewrite emptyCacheTimeout_timeouts.
  - intros key Hkey. rewrite localStorage_emptyCacheTimeout, clear_tier_lookup.
    by rewrite Hkey.
Qed.

Lemma initCachetimeout_short_unchanged_witness :
  live short (fst (initCachetimeout sample_builtins false started)) = live short started.
Proof.
  apply (initCachetimeout_short_unchanged sample_builtins started (JObj []) JUndefined 15).
  - apply wf_started.
  - reflexivity.
  - reflexivity.
  - reflexivity.
  - reflexivity.
Defined.

(** X17: a short length that is not a number ([parseInt] gives [NaN]) is
    never equal to the recorded one: every settings update, forced or not,
    runs [emptyCacheTimeout] for the short tier again, and the timer it arms
    has the delay [NaN]. *)
Theorem initCachetimeout_NaN_length (B : Builtins) (forceRefresh : bool) (st : State)
    (tbsettings sv : JSValue) :
  wf st ->
  member (TBsettingsObject st) "tbsettings" = inl tbsettings ->
  member tbsettings storageShortLengthKey = inl sv ->
  storage_length B 15 sv = NaN ->
  let st' := fst (initCachetimeout B forceRefresh st) in
  timeouts short st' = Some (next_handle st) /\
  exists tm, live short st' = [tm] /\ handle tm = next_handle st /\ delay tm = NaN.
Proof.
  intros Hwf Ht Hs Hd. cbn zeta. unfold initCachetimeout. rewrite Ht, Hs, Hd.
  cbn [num_strict_neq orb].
  set (st0 := set_currentDurations short NaN st).
  assert (wf st0) as Hwf0 by by apply wf_set_currentDurations.
  set (st1 := emptyCacheTimeout NaN short st0).
  assert (wf st1) as Hwf1 by by apply emptyCacheTimeout_wf.
  assert (timeouts short st1 = Some (next_handle st)) as Hh
    by (subst st1; by rewrite emptyCacheTimeout_timeouts).
  assert (live short st1 = [tier_timer NaN short st0]) as Hlive
    by (subst st1; by rewrite live_emptyCacheTimeout_same).
  destruct (member tbsettings storageLongLengthKey) as [lv|e]; cbn [fst].
  2:{ split; [done|]. by exists (tier_timer NaN short st0). }
  destruct (_ || _).
  - assert (wf (set_currentDurations short NaN st1)) as Hwf2
      by by apply wf_set_currentDurations.
    split; [by rewrite emptyCacheTimeout_timeouts|].
    exists (tier_timer NaN short st0). split; [|done].
    by rewrite live_emptyCacheTimeout_other.
  - split; [done|]. by exists (tier_timer NaN short st0).
Qed.

Lemma initCachetimeout_NaN_length_witness :
  timeouts short (fst (initCachetimeout sample_builtins false
                         (set_TBsettingsObject odd_settings started))) = Some 3%nat.
Proof.
  apply (initCachetimeout_NaN_length sample_builtins false
           (set_TBsettingsObject odd_settings started)
           (JObj [("Toolbox.Utils.shortLength", JStr "soon")]) (JStr "soon")).
  - apply wf_set_TBsettingsObject, wf_started.
  - reflexivity.
  - reflexivity.
  - reflexivity.
Defined.

(** X18: once the first cache init has completed, each tier has exactly one
    live timer after every later turn of the event loop: messages, timers
    that fire (the tier's own included), notification callbacks and host
    events, with the notification handlers registered or inline. *)
Theorem one_timer_per_tier_at_every_turn (B : Builtins) (sObject : JSValue)
    (before after : list (Z * Event)) (loaded : State) :
  on_storage_loaded B sObject (run B ∅ before initial) = (loaded, None) ->
  armed (run B ∅ after loaded) /\
  armed (run B (register_notification_handlers ∅) after loaded).
Proof.
  intros Hload.
  assert (wf (run B ∅ before initial)) as Hwf by apply reachable_wf.
  unfold on_storage_loaded in Hload.
  assert (wf loaded) as Hwfl.
  { replace loaded with (fst (initCachetimeout B true
                                (set_TBsettingsObject sObject (run B ∅ before initial))))
      by by rewrite Hload.
    by apply keeps_timers_initCachetimeout, wf_set_TBsettingsObject. }
  assert (armed loaded) as Harmed
    by (eapply initCachetimeout_force_armed; [|exact Hload];
        by apply wf_set_TBsettingsObject).
  split.
  - by apply (run_keeps_timers B ∅ after loaded handlers_keep_timers_empty).
  - by apply (run_keeps_timers B _ after loaded handlers_keep_timers_notifications).
Qed.

Lemma one_timer_per_tier_at_every_turn_witness :
  armed (run sample_builtins ∅ busy_day started).
Proof.
  assert (on_storage_loaded sample_builtins default_settings (run sample_builtins ∅ [] initial)
          = (started, None)) as Hload by (vm_compute; reflexivity).
  exact (proj1 (one_timer_per_tier_at_every_turn sample_builtins default_settings []
                  busy_day started Hload)).
Defined.

(** X19: settings without a [tbsettings] member make [initCachetimeout]
    throw before it touches a timer. The first cache init then stores the
    settings and arms nothing; a settings update stores the payload, asks for
    the broadcast, and the listener's promise rejects with the [TypeError]. *)
Theorem settings_without_tbsettings (B : Builtins) (fuel : nat) (w : World)
    (sender : Sender) (settings : JSValue) (st : State) :
  member settings "tbsettings" = inl JUndefined ->
  let e := TypeError "Cannot read properties of undefined (reading 'Toolbox.Utils.shortLength')" in
  on_storage_loaded B settings st = (set_TBsettingsObject settings st, Some e) /\
  onMessage B ∅ fuel w (settings_update settings) sender st =
    (set_TBsettingsObject settings
       (emit (tabs_query (to_reddit_urls_but sender
                            (tb_global_event (JStr "tb-settings-update") settings))) st),
     rejects e).
Proof.
  intros Hm. cbn zeta. split.
  - unfold on_storage_loaded, initCachetimeout. cbn [TBsettingsObject set_TBsettingsObject].
    by rewrite Hm.
  - unfold onMessage. rewrite lookup_empty. cbn. unfold initCachetimeout.
    cbn [TBsettingsObject set_TBsettingsObject]. by rewrite Hm.
Qed.

Lemma settings_without_tbsettings_witness :
  on_storage_loaded sample_builtins (JObj []) initial =
    (set_TBsettingsObject (JObj []) initial,
     Some (TypeError
             "Cannot read properties of undefined (reading 'Toolbox.Utils.shortLength')")).
Proof.
  apply (settings_without_tbsettings sample_builtins 0 logged_out sample_sender (JObj [])
           initial).
  reflexivity.
Defined.

(** ** Broadcasts *)

(** X20: the loop of a [tb-global] broadcast sent from tab [from] messages
    exactly the tabs whose url includes [reddit.com], except the sender's
    own tab, each with the event as sent. *)
Theorem global_broadcast_recipients (from : nat) (m : TabMessage) (tabs : list Tab) :
  exists out,
    recipients (to_reddit_urls_but {| sender_tab := Some from |} m) tabs = inl out /\
    forall id m',
      In (id, m') out <->
      m' = m /\ id <> from /\
      exists tab, In tab tabs /\ tab_id tab = id /\
                  includes "reddit.com" (tab_url tab) = true.
Proof.
  eexists. split; [reflexivity|]. intros id m'.
  rewrite in_map_iff. split.
  - intros (tab & [= <- <-] & Hin). apply List.filter_In in Hin as [Hin Hp].
    apply andb_true_iff in Hp as [Hne Hurl]. apply negb_true_iff, Nat.eqb_neq in Hne.
    split; [done|]. split; [congruence|]. eauto.
  - intros (-> & Hne & tab & Hin & <- & Hurl). exists tab. split; [done|].
    apply List.filter_In. split; [done|]. rewrite Hurl, andb_true_r.
    apply negb_true_iff, Nat.eqb_neq. congruence.
Qed.

(** X21: a [tb-global] message that does not come from a tab makes the loop
    of the broadcast throw at the first tab, so that no tab is messaged,
    unless no tab is open. *)
Theorem global_broadcast_without_sender_tab (m : TabMessage) (tabs : list Tab) :
  tabs <> [] ->
  recipients (to_reddit_urls_but {| sender_tab := None |} m) tabs =
    inr (TypeError "Cannot read properties of undefined (reading 'id')").
Proof. intros Hne. by destruct tabs. Qed.

Lemma global_broadcast_without_sender_tab_witness :
  recipients (to_reddit_urls_but {| sender_tab := None |} (tb_cache_timeout short)) three_tabs =
    inr (TypeError "Cannot read properties of undefined (reading 'id')").
Proof.
  apply (global_broadcast_without_sender_tab (tb_cache_timeout short) three_tabs).
  discriminate.
Defined.

(** ** The notification handlers *)

(** X22: with the three notification handlers registered, the listener
    treats every message exactly as it does with its inline branches and an
    empty registry: the same state and the same answer. *)
Theorem registered_handlers_same_as_inline (B : Builtins) (fuel : nat) (w : World)
    (request : Request) (sender : Sender) (st : State) :
  onMessage B (register_notification_handlers ∅) fuel w request sender st =
  onMessage B ∅ fuel w request sender st.
Proof.
  unfold onMessage, register_notification_handlers, messageHandlers_set, Handler.
  rewrite lookup_empty.
  destruct (String.eqb_spec (req_action request) "tb-page-notification-close") as [Ha|Ha].
  { rewrite Ha, lookup_insert_eq. reflexivity. }
  rewrite lookup_insert_ne by congruence.
  destruct (String.eqb_spec (req_action request) "tb-page-notification-click") as [Hb|Hb].
  { rewrite Hb, lookup_insert_eq. reflexivity. }
  rewrite lookup_insert_ne by congruence.
  destruct (String.eqb_spec (req_action request) "tb-notification") as [Hc|Hc].
  { rewrite Hc, lookup_insert_eq. reflexivity. }
  rewrite lookup_insert_ne by congruence. by rewrite lookup_empty.
Qed.

(** ** The life of a notification *)

Lemma find_new_timer (tm : Timer) (ts : list Timer) :
  (forall tm', In tm' ts -> (handle tm' < handle tm)%nat) ->
  List.find (fun tm' => Nat.eqb (handle tm') (handle tm)) (ts ++ [tm]) = Some tm /\
  without_handle (handle tm) (ts ++ [tm]) = ts.
Proof.
  intros Hold. induction ts as [|tm0 ts IH]; cbn.
  - by rewrite Nat.eqb_refl.
  - assert (Nat.eqb (handle tm0) (handle tm) = false) as Hne.
    { apply Nat.eqb_neq. specialize (Hold tm0 (or_introl eq_refl)). lia. }
    rewrite Hne. cbn. destruct IH as [Hfind Hwithout]; [intros tm' Hin; apply Hold; by right|].
    split; [done|]. unfold without_handle in Hwithout. by rewrite Hwithout.
Qed.

(** X23: a page notification that nobody closes is disposed of by its own
    timer: after the request, the callback of the tab query and the firing
    of the timer armed there, the notification store and the live timers are
    what they were before the request, and the host was asked for the two
    broadcasts, show and then clear. *)
Theorem page_notification_expires (id : string) (d : Details) (st : State) :
  wf st ->
  notificationData st !! id = None ->
  let shown := on_page_shown id (sendPageNotification id d st) in
  let expired := fire (next_handle st) shown in
  pending_expiry id shown = (pending_expiry id st ++ [expiry_timer id st])%list /\
  notificationData expired = notificationData st /\
  timers expired = timers st /\
  effects expired =
    (effects st ++
     [tabs_query (to_reddit_pattern (tb_show_page_notification id (title d) (body d)));
      tabs_query (to_reddit_pattern (tb_clear_page_notification id))])%list.
Proof.
  intros Hwf Hfresh. cbn zeta.
  destruct (find_new_timer (expiry_timer id st) (timers st)) as [Hfind Hwithout].
  { intros tm' Hin. apply (wf_fresh _ Hwf tm' Hin). }
  split.
  { unfold pending_expiry. cbn. rewrite List.filter_app. cbn. by rewrite String.eqb_refl. }
  set (requested := sendPageNotification id d st).
  set (shown := on_page_shown id requested).
  assert (fire (next_handle st) shown =
          clearNotification id (set_timers (timers st) (next_handle shown) shown)) as ->.
  { unfold fire.
    change (timers shown) with (timers st ++ [expiry_timer id st])%list.
    change (next_handle st) with (handle (expiry_timer id st)).
    by rewrite Hfind, Hwithout. }
  assert (notificationData (set_timers (timers st) (next_handle shown) shown) !! id
          = Some (metadata_of page d)) as Hrecord by (cbn; apply lookup_insert_eq).
  rewrite (clearNotification_page id _ _ Hrecord eq_refl). cbn.
  rewrite delete_insert_id by done. split; [done|]. split; [done|].
  by rewrite <- app_assoc.
Qed.

Lemma page_notification_expires_witness :
  notificationData
    (fire (next_handle started)
       (on_page_shown "20000000-1000-4000-8000-100000000000"
          (sendPageNotification "20000000-1000-4000-8000-100000000000" sample_details
             started))) = notificationData started.
Proof.
  apply (page_notification_expires "20000000-1000-4000-8000-100000000000" sample_details
           started wf_started).
  reflexivity.
Defined.

(** X24: a click on a notification with a record completes; a second click
    on a page notification then throws, its record being gone, while a second
    click on a native notification completes again, the record being kept
    until the host's close event. *)
Theorem onClickNotification_twice (id : string) (m : Metadata) (st : State) :
  notificationData st !! id = Some m ->
  snd (onClickNotification id st) = None /\
  match type m with
  | page =>
      snd (onClickNotification id (fst (onClickNotification id st))) =
        Some (TypeError "Cannot read properties of undefined (reading 'markreadid')")
  | native =>
      snd (onClickNotification id (fst (onClickNotification id st))) = None
  end.
Proof.
  intros Hm. unfold onClickNotification at 1 3 5. rewrite Hm. cbn [fst snd].
  split; [done|].
  set (st2 := emit _ (if truthy (markreadid m) then _ else st)).
  assert (notificationData st2 !! id = Some m) as Hm2
    by (subst st2; by destruct (truthy (markreadid m))).
  destruct (type m) eqn:Ht.
  - rewrite (clearNotification_native id m st2 Hm2 Ht).
    unfold onClickNotification. cbn [notificationData emit]. by rewrite Hm2.
  - rewrite (clearNotification_page id m st2 Hm2 Ht).
    unfold onClickNotification. cbn [notificationData emit set_notificationData].
    by rewrite lookup_delete_eq.
Qed.

Lemma onClickNotification_twice_witness :
  snd (onClickNotification "10000000-1000-4000-8000-100000000000" native_shown) = None.
Proof.
  apply (onClickNotification_twice "10000000-1000-4000-8000-100000000000"
           (metadata_of native sample_details) native_shown).
  reflexivity.
Defined.

(** X25: a request for a native notification stores no record and arms no
    timer before the host's create callback; when the host defines
    [getPermissionLevel] the permission is asked first, and any answer but
    [granted] ends there: no notification is created. *)
Theorem native_notification_needs_permission (uuid : string) (d : Details)
    (permission : string) (st : State) :
  let asked := sendNativeNotification true uuid d st in
  effects asked = (effects st ++ [notifications_getPermissionLevel])%list /\
  notificationData (on_permission permission uuid d asked) = notificationData st /\
  timers (on_permission permission uuid d asked) = timers st /\
  (permission <> "granted" -> on_permission permission uuid d asked = asked) /\
  effects (on_permission "granted" uuid d asked) =
    (effects st ++ [notifications_getPermissionLevel;
                    notifications_create uuid (title d) (body d)])%list /\
  effects (sendNativeNotification false uuid d st) =
    (effects st ++ [notifications_create uuid (title d) (body d)])%list.
Proof.
  cbn zeta. unfold on_permission, send.
  split; [done|]. split; [by destruct (String.eqb permission "granted")|].
  split; [by destruct (String.eqb permission "granted")|]. split.
  - intros Hne. apply String.eqb_neq in Hne. by rewrite Hne.
  - split; [|done]. cbn. by rewrite <- app_assoc.
Qed.

Lemma native_notification_needs_permission_witness :
  on_permission "denied" "10000000-1000-4000-8000-100000000000" sample_details
    (sendNativeNotification true "10000000-1000-4000-8000-100000000000" sample_details initial)
  = sendNativeNotification true "10000000-1000-4000-8000-100000000000" sample_details initial.
Proof.
  apply (native_notification_needs_permission "10000000-1000-4000-8000-100000000000"
           sample_details "denied" initial).
  discriminate.
Defined.

(** ** The two revisions of the listener *)

(** X26: with no handler registered, the two revisions of the listener
    leave the same state on every message whose action is neither
    [tb-reload] nor [tb-request], and what the earlier one returns or throws
    is what the promise of the later one settles with, except that a
    [tb-global] message is answered [undefined] by the earlier and [true] by
    the later. The earlier revision ignores [tb-reload] and [tb-request]. *)
Theorem listener_revisions_agree (B : Builtins) (fuel : nat) (w : World)
    (request : Request) (sender : Sender) (st : State) :
  let earlier := onMessage_earlier B ∅ w request sender st in
  let later := onMessage B ∅ fuel w request sender st in
  (req_action request = "tb-reload" \/ req_action request = "tb-request" ->
   earlier = (st, returned_undefined)) /\
  (req_action request <> "tb-reload" -> req_action request <> "tb-request" ->
   fst earlier = fst later /\
   (snd later = as_promise (snd earlier) \/
    req_action request = "tb-global" /\ snd earlier = returned_undefined /\
    snd later = resolves (plain (JBool true)))).
Proof.
  cbn zeta. unfold onMessage_earlier, onMessage, tb_cache, SyncHandler, Handler.
  rewrite !lookup_empty. cbn zeta. split.
  - intros [Ha|Ha]; rewrite Ha; reflexivity.
  - intros Hr Hq. apply String.eqb_neq in Hr, Hq. rewrite Hr, Hq.
    destruct (String.eqb_spec (req_action request) "tb-global") as [Ha|Ha].
    + rewrite Ha. cbn [String.eqb Ascii.eqb Bool.eqb].
      destruct (is_string (req_globalEvent request) "tb-settings-update").
      * destruct (initCachetimeout B false _) as [st1 [e|]]; cbn; auto.
      * cbn. auto.
    + repeat match goal with
        | |- context [String.eqb (req_action request) ?k] =>
            destruct (String.eqb (req_action request) k)
        end;
        repeat match goal with
          | |- context [initCachetimeout B ?f ?s] =>
              destruct (initCachetimeout B f s) as [? [?|]]
          | |- context [onClickNotification ?i ?s] =>
              destruct (onClickNotification i s) as [? [?|]]
          | |- context [is_string ?v ?k] => destruct (is_string v k)
          | |- context [localStorage st !! ?k] => destruct (localStorage st !! k)
          | |- context [JSON_parse B ?x] => destruct (JSON_parse B x)
          end; cbn; auto.
Qed.

Lemma listener_revisions_agree_witness :
  fst (onMessage_earlier sample_builtins ∅ logged_out cache_get_request sample_sender
         corrupted_store) =
  fst (onMessage sample_builtins ∅ 0 logged_out cache_get_request sample_sender
         corrupted_store).
Proof.
  apply (listener_revisions_agree sample_builtins 0 logged_out cache_get_request
           sample_sender corrupted_store); discriminate.
Defined.

(** ** Requests that are never answered *)

(** X27: when the first read finds the token cookie missing or expired and
    the GET of the modmail page fails, or finds a cookie that has not expired
    but whose value [atob] or [JSON.parse] rejects, the promise of
    [getOAuthTokens()] never settles, and a [tb-request] with [oauth] set is
    left without an answer: no [$.ajax] call and no error result. *)
Theorem tb_request_left_unanswered (B : Builtins) (fuel : nat) (w : World)
    (request : Request) (st : State) (endpoint : string) :
  req_endpoint request = Some endpoint ->
  startsWith "/" endpoint = true ->
  truthy (req_oauth request) = true ->
  (unusable_at w 0 = true /\ modmail_done w 0 = false) \/
  (exists c, cookies_get w 0 = Some c /\ unusable_at w 0 = false /\
             match atob B (strip_invalid (cookie_value c)) with
             | inl text => exists m, JSON_parse B text = inr m
             | inr _ => True
             end) ->
  snd (tb_request B (S fuel) w request st) = never_settles /\
  effects (fst (tb_request B (S fuel) w request st)) =
    (effects st ++ snd (getOAuthTokens B (S fuel) w 0 1))%list /\
  forall options, ~ In (ajax options) (snd (getOAuthTokens B (S fuel) w 0 1)).
Proof.
  intros He Hs Ho Hcase. unfold tb_request. rewrite He, Hs, Ho. cbn [negb].
  assert (exists calls, getOAuthTokens B (S fuel) w 0 1 = (never_settles, calls) /\
                        forall options, ~ In (ajax options) calls) as (calls & Hrun & Hno).
  { cbn [getOAuthTokens]. unfold unusable_at in Hcase.
    destruct Hcase as [[Hu Hg]|(c & Hc & Hu & Hdecode)].
    - destruct (cookies_get w 0) as [c|]; cbn; rewrite ?Hu; cbn; rewrite Hg;
        eexists; (split; [reflexivity|]); intros options [H|[H|[]]]; discriminate.
    - rewrite Hc in *. rewrite Hu. cbn.
      destruct (atob B (strip_invalid (cookie_value c))) as [text|m].
      + destruct Hdecode as [m Hm]. rewrite Hm.
        eexists; (split; [reflexivity|]); intros options [H|[]]; discriminate.
      + eexists; (split; [reflexivity|]); intros options [H|[]]; discriminate. }
  rewrite Hrun. cbn [fst snd]. split; [done|]. split; [|exact Hno].
  apply same_page_emit_all.
Qed.

Lemma tb_request_left_unanswered_witness :
  snd (tb_request sample_builtins 1 offline oauth_request initial) = never_settles.
Proof.
  apply (tb_request_left_unanswered sample_builtins 0 offline oauth_request initial
           "/api/mod/conversations"); try reflexivity.
  left. split; reflexivity.
Defined.
